(** * AnalogShield: a shallow embedding of the host-side driver
    ([AnalogShield.py]) and proofs about its codec, its protocol engine,
    its channel-scoped operations, its ramp setters and its calibration.

    Modelling conventions.
    - Voltages are exact rationals [Q]; Python floats are idealised as exact
      arithmetic.  Python [int(x)] on a number is truncation toward zero.
    - Bytes are [Z] values; a frame is a [list Z].
    - The serial device is scripted: [dev_in] lists the results of the
      successive [device.read()] calls (a read past the end returns no
      byte), [dev_sent] logs every [device.write].
    - The receive loop of [write] is unbounded in the source; the model runs
      it for at most [fuel] polls and reports [Hang] when the bound is hit.
    - Python lists of correction functions are objects on a small heap, so
      that the aliasing of [adc_calibrate] is visible. *)

From Stdlib Require Import ZArith QArith Qround Qabs List String Ascii Lia Lqa Bool.
Import ListNotations.
Open Scope Z_scope.

(* ------------------------------------------------------------------ *)
(** ** Python values that cross the API *)

(** A channel argument is a Python int or a Python str. *)
Inductive channel :=
| ChInt (z : Z)
| ChStr (s : string).

(** The kinds of [ValueError] the module raises, one per raise site, plus
    the one raised by [bytearray] for an element outside [0, 255] and the
    one raised by [int(x, 16)] on a malformed response field. *)
Inductive value_error :=
| InvalidChannel (c : channel)          (* analog_read, line 375 *)
| PeriodNotPositive                     (* ramp_period, line 240 *)
| AmplitudeRange                        (* ramp_amplitude, line 263 *)
| InvalidRampFunction (f : string)      (* ramp_function, line 326 *)
| ByteRange                             (* bytearray.extend, line 76 *)
| BadHex (s : string).                  (* int(x, 16), line 361 *)

Inductive py_error :=
| ValueError (k : value_error)
| IndexError
| TypeError.

(** The [RuntimeWarning]s of the module. *)
Inductive warning :=
| DacUncalibrated (c : channel)
| AdcUncalibrated (c : channel).

(** Values returned by the ramp accessors (getter or setter). *)
Inductive pyval :=
| PNone
| PInt (z : Z)
| PNum (q : Q)
| PStr (s : string).

(* ------------------------------------------------------------------ *)
(** ** Command codec *)

(** Python [int(x)] on a number: truncation toward zero. *)
Definition py_int (q : Q) : Z := Z.quot (Qnum q) (Zpos (Qden q)).

(** [bits_to_volts(bits) = 2*bits/13107 - 5] *)
Definition bits_to_volts (bits : Z) : Q := (2 * inject_Z bits / 13107 - 5)%Q.

(** [volts_to_bits(volts) = int((13107*volts + 65535)/2)] *)
Definition volts_to_bits (volts : Q) : Z := py_int ((13107 * volts + 65535) / 2)%Q.

(** [encode_num(n) = [n >> 8, n & 0x00ff]] *)
Definition encode_num (n : Z) : list Z := [Z.shiftr n 8; Z.land n 255].

(** [ord] of each character of a string. *)
Definition ords (s : string) : list Z :=
  map (fun a => Z.of_nat (nat_of_ascii a)) (list_ascii_of_string s).

Definition byte_ok (b : Z) : bool := (0 <=? b) && (b <=? 255).

(** [bytearray(xs)] and [bytearray.extend(xs)]: every element must lie in
    [0, 255], otherwise [ValueError]. *)
Definition bytearray_extend (bs xs : list Z) : option (list Z) :=
  if forallb byte_ok xs then Some (bs ++ xs) else None.

(** Lines 75-76 of [write]: the bytes of a command frame. *)
Definition frame (identifier : string) (arg : Z) : option (list Z) :=
  match bytearray_extend [] (ords identifier) with
  | None => None
  | Some byte_list => bytearray_extend byte_list (encode_num arg)
  end.

(** [bytes.decode("latin-1")]: byte [b] becomes the character of code [b]. *)
Definition decode_latin1 (bs : list Z) : string :=
  string_of_list_ascii (map (fun b => ascii_of_nat (Z.to_nat b)) bs).

(** Python [s[:-1]] on a string. *)
Definition strip_last (s : string) : string :=
  substring 0 (String.length s - 1) s.

(** [response[-1] == ";" or response[-1] == 0x3b] (guarded by
    [len(response) > 0]); [0x3b] is the terminator. *)
Definition terminator : Z := 59.

(** Python [response[-1]], [None] on an empty buffer. *)
Fixpoint last_byte (bs : list Z) : option Z :=
  match bs with
  | [] => None
  | [b] => Some b
  | _ :: bs' => last_byte bs'
  end.

Definition ends_in_terminator (response : list Z) : bool :=
  match last_byte response with
  | Some b => b =? terminator
  | None => false
  end.

(** The receive loop of [write] (lines 84-95), run for at most [n] polls.
    [read_chunk] is one [device.read()] on the scripted input. *)
Definition read_chunk (cs : list (list Z)) : list Z * list (list Z) :=
  match cs with
  | [] => ([], [])
  | c :: cs' => (c, cs')
  end.

Fixpoint recv_loop (n : nat) (response : list Z) (cs : list (list Z))
  : option (list Z * list (list Z)) :=
  match n with
  | O => None
  | S n' =>
      let (c, cs') := read_chunk cs in
      let response' := response ++ c in
      if ends_in_terminator response' then Some (response', cs')
      else recv_loop n' response' cs'
  end.

(* ------------------------------------------------------------------ *)
(** ** Session state *)

(** [np.poly1d] of degree one: [slope * x + intercept]. *)
Record poly1 := { p_slope : Q; p_icept : Q }.

Definition poly_eval (p : poly1) (x : Q) : Q := (p_slope p * x + p_icept p)%Q.

(** The pickled calibration dictionary [{"adc": [...], "dac": [...]}]. *)
Record cal_table := { t_adc : list (option poly1); t_dac : list (option poly1) }.

(** [self.ramp] *)
Record ramp_cache := {
  r_on : list bool;
  r_period : list Z;
  r_amplitude : list Q;
  r_offset : list Q;
  r_phase : list Q;
  r_function : list string }.

(** The object [self], the serial device, the multimeter and the
    calibration file.  [heap] holds the Python lists of correction
    functions; [adc_ref] and [dac_ref] are the lists that
    [self.adc_correct] and [self.dac_correct] refer to. *)
Record shield := {
  dev_sent : list (list Z);
  dev_in : list (list Z);
  meter : nat -> Q;
  meter_pos : nat;
  ramp : ramp_cache;
  heap : list (list (option poly1));
  adc_ref : nat;
  dac_ref : nat;
  calibration_location : option string;
  cal_file : option cal_table;
  warns : list warning }.

Definition set_io (sent : list (list Z)) (inp : list (list Z)) (w : shield) : shield :=
  {| dev_sent := sent; dev_in := inp; meter := meter w; meter_pos := meter_pos w;
     ramp := ramp w; heap := heap w; adc_ref := adc_ref w; dac_ref := dac_ref w;
     calibration_location := calibration_location w; cal_file := cal_file w;
     warns := warns w |}.

Definition set_meter_pos (k : nat) (w : shield) : shield :=
  {| dev_sent := dev_sent w; dev_in := dev_in w; meter := meter w; meter_pos := k;
     ramp := ramp w; heap := heap w; adc_ref := adc_ref w; dac_ref := dac_ref w;
     calibration_location := calibration_location w; cal_file := cal_file w;
     warns := warns w |}.

Definition set_ramp (r : ramp_cache) (w : shield) : shield :=
  {| dev_sent := dev_sent w; dev_in := dev_in w; meter := meter w; meter_pos := meter_pos w;
     ramp := r; heap := heap w; adc_ref := adc_ref w; dac_ref := dac_ref w;
     calibration_location := calibration_location w; cal_file := cal_file w;
     warns := warns w |}.

Definition set_heap (h : list (list (option poly1))) (w : shield) : shield :=
  {| dev_sent := dev_sent w; dev_in := dev_in w; meter := meter w; meter_pos := meter_pos w;
     ramp := ramp w; heap := h; adc_ref := adc_ref w; dac_ref := dac_ref w;
     calibration_location := calibration_location w; cal_file := cal_file w;
     warns := warns w |}.

Definition set_cal_file (f : option cal_table) (w : shield) : shield :=
  {| dev_sent := dev_sent w; dev_in := dev_in w; meter := meter w; meter_pos := meter_pos w;
     ramp := ramp w; heap := heap w; adc_ref := adc_ref w; dac_ref := dac_ref w;
     calibration_location := calibration_location w; cal_file := f;
     warns := warns w |}.

Definition add_warn (x : warning) (w : shield) : shield :=
  {| dev_sent := dev_sent w; dev_in := dev_in w; meter := meter w; meter_pos := meter_pos w;
     ramp := ramp w; heap := heap w; adc_ref := adc_ref w; dac_ref := dac_ref w;
     calibration_location := calibration_location w; cal_file := cal_file w;
     warns := warns w ++ [x] |}.

(** The Python list at heap location [r]. *)
Definition deref (w : shield) (r : nat) : list (option poly1) := nth r (heap w) [].

(* ------------------------------------------------------------------ *)
(** ** A state and exception monad *)

Inductive outcome (A : Type) :=
| Ok (a : A) (w : shield)
| Err (e : py_error) (w : shield)
| Hang.
Arguments Ok {A} a w.
Arguments Err {A} e w.
Arguments Hang {A}.

Definition M (A : Type) := shield -> outcome A.

Definition ret {A} (a : A) : M A := fun w => Ok a w.

Definition bind {A B} (m : M A) (k : A -> M B) : M B :=
  fun w => match m w with
           | Ok a w' => k a w'
           | Err e w' => Err e w'
           | Hang => Hang
           end.

Notation "x <- m ;; k" := (bind m (fun x => k))
  (at level 61, m at next level, right associativity).
Notation "m ;;; k" := (bind m (fun _ => k))
  (at level 61, right associativity).

Definition raise {A} (e : py_error) : M A := fun w => Err e w.
Definition get : M shield := fun w => Ok w w.
Definition modify (f : shield -> shield) : M unit := fun w => Ok tt (f w).
Definition warn (x : warning) : M unit := modify (add_warn x).

(** Python list indexing: negative indices count from the end, anything
    else out of range raises [IndexError], a [str] index [TypeError]. *)
Definition py_norm (n : nat) (i : Z) : option nat :=
  if (0 <=? i) && (i <? Z.of_nat n) then Some (Z.to_nat i)
  else if (- Z.of_nat n <=? i) && (i <? 0) then Some (Z.to_nat (Z.of_nat n + i))
  else None.

Fixpoint upd {A} (k : nat) (v : A) (l : list A) : list A :=
  match l, k with
  | [], _ => []
  | _ :: l', O => v :: l'
  | x :: l', S k' => x :: upd k' v l'
  end.

Definition py_getitem {A} (l : list A) (c : channel) : M A :=
  match c with
  | ChStr _ => raise TypeError
  | ChInt i =>
      match py_norm (List.length l) i with
      | Some k => match nth_error l k with Some x => ret x | None => raise IndexError end
      | None => raise IndexError
      end
  end.

Definition py_setitem {A} (l : list A) (c : channel) (v : A) : M (list A) :=
  match c with
  | ChStr _ => raise TypeError
  | ChInt i =>
      match py_norm (List.length l) i with
      | Some k => ret (upd k v l)
      | None => raise IndexError
      end
  end.

(** [lst[c] = v] on the heap list at location [r]. *)
Definition heap_setitem (r : nat) (c : channel) (v : option poly1) : M unit :=
  w <- get ;;
  l <- py_setitem (deref w r) c v ;;
  modify (set_heap (upd r l (heap w))).

Section Session.
(** Bound on the polls of one receive loop. *)
Variable fuel : nat.

(** [AnalogShield.write(identifier, arg)] *)
Definition write (identifier : string) (arg : Z) : M string :=
  fun w =>
    match frame identifier arg with
    | None => Err (ValueError ByteRange) w
    | Some byte_list =>
        let sent := dev_sent w ++ [byte_list] in
        let (first, cs) := read_chunk (dev_in w) in
        match recv_loop fuel first cs with
        | None => Hang
        | Some (response, cs') =>
            Ok (strip_last (decode_latin1 response)) (set_io sent cs' w)
        end
    end.

(** [queue_on] and [queue_off] *)
Definition queue_on : M string := write "qm" 1.
Definition queue_off : M string := write "qm" 0.

(* ------------------------------------------------------------------ *)
(** ** Helpers for the channel-scoped operations *)

(** [channel == s] for a string [s]. *)
Definition is_str (ch : channel) (s : string) : bool :=
  match ch with ChStr t => String.eqb t s | ChInt _ => false end.

(** [str.lower] on ASCII letters. *)
Definition lower_ascii (a : ascii) : ascii :=
  let n := nat_of_ascii a in
  if (65 <=? n)%nat && (n <=? 90)%nat then ascii_of_nat (n + 32) else a.

Fixpoint lower (s : string) : string :=
  match s with
  | EmptyString => EmptyString
  | String a s' => String (lower_ascii a) (lower s')
  end.

(** [str(channel)] for a channel already known to lie in [0, 3]. *)
Definition str_digit (z : Z) : string := String (ascii_of_nat (48 + Z.to_nat z)) EmptyString.

(** Python [max(a, b)] and [min(a, b)] on numbers. *)
Definition py_max (a b : Q) : Q := if Qle_bool b a then a else b.
Definition py_min (a b : Q) : Q := if Qle_bool a b then a else b.

(** [str.split(",")] *)
Fixpoint split_comma (s : string) : list string :=
  match s with
  | EmptyString => [EmptyString]
  | String a s' =>
      if Ascii.eqb a "," then EmptyString :: split_comma s'
      else match split_comma s' with
           | [] => [String a EmptyString]
           | x :: xs => String a x :: xs
           end
  end.

(** [int(x, 16)] on a field made of hexadecimal digits only (the device
    sends bare hex words; signs, prefixes and blanks are not modelled and
    are rejected). *)
Definition hex_digit (a : ascii) : option Z :=
  let n := Z.of_nat (nat_of_ascii a) in
  if (48 <=? n) && (n <=? 57) then Some (n - 48)
  else if (97 <=? n) && (n <=? 102) then Some (n - 87)
  else if (65 <=? n) && (n <=? 70) then Some (n - 55)
  else None.

Fixpoint hex_val (acc : Z) (s : string) : option Z :=
  match s with
  | EmptyString => Some acc
  | String a s' =>
      match hex_digit a with
      | Some d => hex_val (16 * acc + d) s'
      | None => None
      end
  end.

Definition py_int16 (x : string) : M Z :=
  match x with
  | EmptyString => raise (ValueError (BadHex x))
  | _ => match hex_val 0 x with
         | Some z => ret z
         | None => raise (ValueError (BadHex x))
         end
  end.

Fixpoint map_m {A B} (f : A -> M B) (l : list A) : M (list B) :=
  match l with
  | [] => ret []
  | x :: l' => y <- f x ;; ys <- map_m f l' ;; ret (y :: ys)
  end.

(* ------------------------------------------------------------------ *)
(** ** DAC and ADC methods *)

(** [analog_write(channel, val, correct)]; [None] is the implicit
    [return None]. *)
Definition analog_write (ch : channel) (val : Q) (correct : bool) : M (option string) :=
  val <- (if correct && negb (is_str ch "all") then
            w <- get ;;
            f <- py_getitem (deref w (dac_ref w)) ch ;;
            match f with
            | Some p =>
                let v := poly_eval p val in
                let v := py_max (-5) v in
                ret (py_min 5 v)
            | None => warn (DacUncalibrated ch) ;;; ret val
            end
          else ret val) ;;
  let val_bits := volts_to_bits val in
  match ch with
  | ChStr s =>
      if String.eqb (lower s) "all" then r <- write "va" val_bits ;; ret (Some r)
      else raise TypeError            (* [0 <= channel] on a str *)
  | ChInt z =>
      if (0 <=? z) && (z <=? 3) then r <- write ("v" ++ str_digit z) val_bits ;; ret (Some r)
      else ret None
  end.

(** [analog_read(channel, samples, correct)] *)
Definition analog_read (ch : channel) (samples : Z) (correct : bool) : M (list Q) :=
  match ch with
  | ChStr _ => raise TypeError                (* [0 <= channel] on a str *)
  | ChInt z =>
      if (0 <=? z) && (z <=? 3) then
        response <- write ("A" ++ str_digit z) samples ;;
        bit_vals <- map_m py_int16 (split_comma response) ;;
        let voltages := map bits_to_volts bit_vals in
        if correct then
          w <- get ;;
          f <- py_getitem (deref w (adc_ref w)) ch ;;
          match f with
          | Some p => ret (map (poly_eval p) voltages)
          | None => warn (AdcUncalibrated ch) ;;; ret voltages
          end
        else ret voltages
      else raise (ValueError (InvalidChannel ch))
  end.

(* ------------------------------------------------------------------ *)
(** ** Ramp methods *)

Definition with_on (l : list bool) (r : ramp_cache) : ramp_cache :=
  {| r_on := l; r_period := r_period r; r_amplitude := r_amplitude r;
     r_offset := r_offset r; r_phase := r_phase r; r_function := r_function r |}.
Definition with_period (l : list Z) (r : ramp_cache) : ramp_cache :=
  {| r_on := r_on r; r_period := l; r_amplitude := r_amplitude r;
     r_offset := r_offset r; r_phase := r_phase r; r_function := r_function r |}.
Definition with_amplitude (l : list Q) (r : ramp_cache) : ramp_cache :=
  {| r_on := r_on r; r_period := r_period r; r_amplitude := l;
     r_offset := r_offset r; r_phase := r_phase r; r_function := r_function r |}.
Definition with_offset (l : list Q) (r : ramp_cache) : ramp_cache :=
  {| r_on := r_on r; r_period := r_period r; r_amplitude := r_amplitude r;
     r_offset := l; r_phase := r_phase r; r_function := r_function r |}.
Definition with_phase (l : list Q) (r : ramp_cache) : ramp_cache :=
  {| r_on := r_on r; r_period := r_period r; r_amplitude := r_amplitude r;
     r_offset := r_offset r; r_phase := l; r_function := r_function r |}.
Definition with_function (l : list string) (r : ramp_cache) : ramp_cache :=
  {| r_on := r_on r; r_period := r_period r; r_amplitude := r_amplitude r;
     r_offset := r_offset r; r_phase := r_phase r; r_function := l |}.

(** [write("rc", channel)]: the channel itself is the argument; a str
    channel would make [encode_num] raise [TypeError]. *)
Definition select_channel (ch : channel) : M string :=
  match ch with
  | ChInt z => write "rc" z
  | ChStr _ => raise TypeError
  end.

(** The fan-out [for c in range(4): f(c)] followed by [return]. *)
Definition for_channels {A} (f : Z -> M A) : M pyval :=
  f 0 ;;; f 1 ;;; f 2 ;;; f 3 ;;; ret PNone.

Definition ramp_running (ch : channel) : M bool :=
  w <- get ;; py_getitem (r_on (ramp w)) ch.

Definition ramp_switch_one (on : bool) (ch : channel) : M pyval :=
  w <- get ;;
  l <- py_setitem (r_on (ramp w)) ch on ;;
  modify (set_ramp (with_on l (ramp w))) ;;;
  select_channel ch ;;;
  r <- write (if on then "r1" else "r0") 0 ;;
  ret (PStr r).

(** [ramp_on(channel)] and [ramp_off(channel)] *)
Definition ramp_on (ch : channel) : M pyval :=
  if is_str ch "all" then for_channels (fun c => ramp_switch_one true (ChInt c))
  else ramp_switch_one true ch.
Definition ramp_off (ch : channel) : M pyval :=
  if is_str ch "all" then for_channels (fun c => ramp_switch_one false (ChInt c))
  else ramp_switch_one false ch.

Definition ramp_period_one (ch : channel) (time : option Z) : M pyval :=
  match time with
  | None => w <- get ;; v <- py_getitem (r_period (ramp w)) ch ;; ret (PInt v)
  | Some t =>
      if 0 <? t then
        w <- get ;;
        l <- py_setitem (r_period (ramp w)) ch t ;;
        modify (set_ramp (with_period l (ramp w))) ;;;
        select_channel ch ;;;
        r <- write "rp" t ;;
        ret (PStr r)
      else raise (ValueError PeriodNotPositive)
  end.

(** [ramp_period(channel, time)] with an int [time] *)
Definition ramp_period (ch : channel) (time : option Z) : M pyval :=
  if is_str ch "all" then for_channels (fun c => ramp_period_one (ChInt c) time)
  else ramp_period_one ch time.

Definition ramp_amplitude_one (ch : channel) (amp : option Q) : M pyval :=
  match amp with
  | None => w <- get ;; v <- py_getitem (r_amplitude (ramp w)) ch ;; ret (PNum v)
  | Some a =>
      if Qle_bool 0 a && Qle_bool a 5 then
        w <- get ;;
        l <- py_setitem (r_amplitude (ramp w)) ch a ;;
        modify (set_ramp (with_amplitude l (ramp w))) ;;;
        let amp_bits := volts_to_bits a in
        select_channel ch ;;;
        r <- write "ra" amp_bits ;;
        ret (PStr r)
      else raise (ValueError AmplitudeRange)
  end.

(** [ramp_amplitude(channel, amp)] *)
Definition ramp_amplitude (ch : channel) (amp : option Q) : M pyval :=
  if is_str ch "all" then for_channels (fun c => ramp_amplitude_one (ChInt c) amp)
  else ramp_amplitude_one ch amp.

Definition ramp_offset_one (ch : channel) (offset : option Q) : M pyval :=
  match offset with
  | None => w <- get ;; v <- py_getitem (r_offset (ramp w)) ch ;; ret (PNum v)
  | Some o =>
      if Qle_bool (-5) o && Qle_bool o 5 then
        w <- get ;;
        l <- py_setitem (r_offset (ramp w)) ch o ;;
        modify (set_ramp (with_offset l (ramp w))) ;;;
        let offset_bits := volts_to_bits o in
        select_channel ch ;;;
        r <- write "ro" offset_bits ;;
        ret (PStr r)
      else ret PNone            (* no else branch: implicit [return None] *)
  end.

(** [ramp_offset(channel, offset)] *)
Definition ramp_offset (ch : channel) (offset : option Q) : M pyval :=
  if is_str ch "all" then for_channels (fun c => ramp_offset_one (ChInt c) offset)
  else ramp_offset_one ch offset.

Definition ramp_phase_one (ch : channel) (phase : option Q) : M pyval :=
  match phase with
  | None => w <- get ;; v <- py_getitem (r_phase (ramp w)) ch ;; ret (PNum v)
  | Some p =>
      if Qle_bool 0 p && Qle_bool p 100 then
        w <- get ;;
        l <- py_setitem (r_phase (ramp w)) ch p ;;
        modify (set_ramp (with_phase l (ramp w))) ;;;
        let phase_bits := py_int (p * 65535 / 100) in
        select_channel ch ;;;
        r <- write "rs" phase_bits ;;
        ret (PStr r)
      else ret PNone            (* no else branch: implicit [return None] *)
  end.

(** [ramp_phase(channel, phase)] *)
Definition ramp_phase (ch : channel) (phase : option Q) : M pyval :=
  if is_str ch "all" then for_channels (fun c => ramp_phase_one (ChInt c) phase)
  else ramp_phase_one ch phase.

(** [{"triangle":0, "sin":1, "square":2}[function]] *)
Definition func_num (f : string) : option Z :=
  if String.eqb f "triangle" then Some 0
  else if String.eqb f "sin" then Some 1
  else if String.eqb f "square" then Some 2
  else None.

Definition ramp_function_one (ch : channel) (function : option string) : M pyval :=
  match function with
  | None => w <- get ;; v <- py_getitem (r_function (ramp w)) ch ;; ret (PStr v)
  | Some f =>
      match func_num f with
      | Some n =>
          w <- get ;;
          l <- py_setitem (r_function (ramp w)) ch f ;;
          modify (set_ramp (with_function l (ramp w))) ;;;
          select_channel ch ;;;
          r <- write "rf" n ;;
          ret (PStr r)
      | None => raise (ValueError (InvalidRampFunction f))
      end
  end.

(** [ramp_function(channel, function)] *)
Definition ramp_function (ch : channel) (function : option string) : M pyval :=
  if is_str ch "all" then for_channels (fun c => ramp_function_one (ChInt c) function)
  else ramp_function_one ch function.

(* ------------------------------------------------------------------ *)
(** ** Calibration *)

(** [multimeter.voltage()]: the next reading of the reference meter. *)
Definition multimeter_voltage : M Q :=
  w <- get ;;
  modify (set_meter_pos (S (meter_pos w))) ;;;
  ret (meter w (meter_pos w)).

Definition sumQ (l : list Q) : Q := fold_right Qplus 0%Q l.

(** [np.mean] *)
Definition mean (l : list Q) : Q := (sumQ l / inject_Z (Z.of_nat (List.length l)))%Q.

(** [np.poly1d(np.polyfit(xs, ys, 1))]: the least-squares line through the
    points [(xs_i, ys_i)], in exact arithmetic (the sweeps always have
    eleven points; with all [xs_i] equal the line is undetermined and the
    model's slope is 0). *)
Definition polyfit1 (xs ys : list Q) : poly1 :=
  let n := inject_Z (Z.of_nat (List.length xs)) in
  let sx := sumQ xs in
  let sy := sumQ ys in
  let sxx := sumQ (map (fun x => x * x)%Q xs) in
  let sxy := sumQ (map (fun '(x, y) => x * y)%Q (combine xs ys)) in
  let slope := ((n * sxy - sx * sy) / (n * sxx - sx * sx))%Q in
  {| p_slope := slope; p_icept := ((sy - slope * sx) / n)%Q |}.

(** [range(a, b)] *)
Definition zrange (a b : Z) : list Z :=
  map (fun k => a + Z.of_nat k) (seq 0 (Z.to_nat (b - a))).

(** The loop of [adc_calibrate] (lines 121-131): returns
    [(actual_readings, adc_readings)]. *)
Fixpoint adc_sweep (ch : channel) (vs : list Z) : M (list Q * list Q) :=
  match vs with
  | [] => ret ([], [])
  | v_out :: vs' =>
      analog_write (ChInt 0) (inject_Z v_out) true ;;;
      v_actual <- multimeter_voltage ;;
      rs <- analog_read ch 500 false ;;
      let v_adc := mean rs in
      rest <- adc_sweep ch vs' ;;
      ret (v_actual :: fst rest, v_adc :: snd rest)
  end.


(** The dictionary [calibration]: the heap locations of its two lists. *)
Record cal_dict := { d_adc : nat; d_dac : nat }.

(** A fresh Python list on the heap. *)
Definition alloc (l : list (option poly1)) : M nat :=
  w <- get ;;
  modify (set_heap (heap w ++ [l])) ;;;
  ret (List.length (heap w)).

(** [pickle.load]: fresh lists holding the stored entries. *)
Definition load_table (t : cal_table) : M cal_dict :=
  a <- alloc (t_adc t) ;;
  d <- alloc (t_dac t) ;;
  ret {| d_adc := a; d_dac := d |}.

(** Lines 138-144 (and 184-190): the existing table if the file exists,
    otherwise a dictionary holding [self.adc_correct] and
    [self.dac_correct] themselves. *)
Definition open_calibration : M cal_dict :=
  w <- get ;;
  match cal_file w with
  | Some t => load_table t
  | None => ret {| d_adc := adc_ref w; d_dac := dac_ref w |}
  end.

(** [pickle.dump(calibration, ...)]: the file receives the current
    contents of the dictionary's lists. *)
Definition dump_table (d : cal_dict) : M unit :=
  w <- get ;;
  modify (set_cal_file (Some {| t_adc := deref w (d_adc d); t_dac := deref w (d_dac d) |})).

(** [adc_calibrate(channel, multimeter)] *)
Definition adc_calibrate (ch : channel) : M unit :=
  analog_write (ChInt 0) (-5) true ;;;
  readings <- adc_sweep ch (zrange (-5) 6) ;;
  let actual_readings := fst readings in
  let adc_readings := snd readings in
  w <- get ;;
  heap_setitem (adc_ref w) ch (Some (polyfit1 adc_readings actual_readings)) ;;;
  w <- get ;;
  match calibration_location w with
  | None => ret tt
  | Some _ =>
      calibration <- open_calibration ;;
      w <- get ;;
      v <- py_getitem (deref w (dac_ref w)) ch ;;       (* self.dac_correct[channel] *)
      heap_setitem (d_adc calibration) ch v ;;;         (* calibration["adc"][channel] = *)
      dump_table calibration
  end.


(* ------------------------------------------------------------------ *)
(** ** Construction *)

Definition four {A} (x : A) : list A := [x; x; x; x].

(** The state built by lines 20-43 of [__init__], before the reset
    commands: the device, the meter, the location and the file are
    given. *)
Definition init_state (inp : list (list Z)) (mtr : nat -> Q)
    (location : option string) (file : option cal_table) : shield :=
  let r := {| r_on := four false; r_period := four 100; r_amplitude := four 5%Q;
              r_offset := four 0%Q; r_phase := four 0%Q; r_function := four "triangle"%string |} in
  let loaded := match location, file with Some _, Some t => Some t | _, _ => None end in
  {| dev_sent := []; dev_in := inp; meter := mtr; meter_pos := 0; ramp := r;
     heap := [four None; four None] ++ match loaded with
                                       | Some t => [t_adc t; t_dac t]
                                       | None => []
                                       end;
     adc_ref := match loaded with Some _ => 2%nat | None => 0%nat end;
     dac_ref := match loaded with Some _ => 3%nat | None => 1%nat end;
     calibration_location := location; cal_file := file; warns := [] |}.

(** Lines 46-61 of [__init__]: reset to the default state. *)
Definition reset : M unit :=
  queue_off ;;;
  ramp_off (ChStr "all") ;;;
  ramp_period (ChStr "all") (Some 100) ;;;
  ramp_amplitude (ChStr "all") (Some 5%Q) ;;;
  ramp_offset (ChStr "all") (Some 0%Q) ;;;
  ramp_phase (ChStr "all") (Some 0%Q) ;;;
  ramp_function (ChStr "all") (Some "triangle"%string) ;;;
  analog_write (ChStr "all") 0 true ;;;
  analog_read (ChInt 0) 5 true ;;;
  analog_read (ChInt 1) 5 true ;;;
  analog_read (ChInt 2) 5 true ;;;
  analog_read (ChInt 3) 5 true ;;;
  ret tt.

End Session.

(* ------------------------------------------------------------------ *)
(** ** The spec's reading of [volts_to_bits] *)

(** Rounding to the nearest integer, as the spec writes
    [round((13107*v + 65535) / 2)] (ties do not occur in the use below). *)
Definition round_nearest (q : Q) : Z := Qfloor (q + (1 # 2))%Q.

Definition volts_to_bits_spec (volts : Q) : Z := round_nearest ((13107 * volts + 65535) / 2)%Q.

(* ------------------------------------------------------------------ *)
(** ** Concrete sessions used by the proofs *)

(** A session on a stub device that answers with the given chunks. *)
Definition stub (inp : list (list Z)) : shield := init_state inp (fun _ => 0%Q) None None.

(** A read returns ["1;2"] (a terminator followed by more bytes), the next
    read nothing, the one after [";"]. *)
Definition w_split : shield := stub [[49; 59; 50]; []; [59]].

(** The response ["80;"] delivered one byte per read, with empty reads in
    between. *)
Definition w_bytes : shield := stub [[]; [56]; []; []; [48]; []; [59]].

(** A fresh session whose device has nothing to say. *)
Definition s_fresh : shield := stub [].

(** A stub device that answers ["8000;"] and then nothing. *)
Definition s_echo : shield := stub [[56; 48; 48; 48; 59]; []].

(** A stub device that acknowledges two commands with an empty payload. *)
Definition s_ack : shield := stub [[59]; []; [59]; []].

(** [True] on a normal return. *)
Definition is_ok {A} (o : outcome A) : bool :=
  match o with Ok _ _ => true | _ => false end.

(** Python [lst[i]] as an option ([None] where Python raises). *)
Definition py_lookup {A} (l : list A) (i : Z) : option A :=
  match py_norm (List.length l) i with
  | Some k => nth_error l k
  | None => None
  end.

(** A scripted calibration bench: every DAC write is acknowledged, the
    i-th ADC read returns the hex word [6500*i + 100], the reference meter
    reads [-5, -4, ..., 5]. *)
Definition hex_char (d : Z) : Z := if d <? 10 then 48 + d else 87 + d.

Definition hex_word (n : Z) : list Z :=
  map (fun sh => hex_char (Z.land (Z.shiftr n sh) 15)) [12; 8; 4; 0].

Definition bench_script : list (list Z) :=
  [59] :: [] :: flat_map (fun i => [[59]; []; hex_word (6500 * i + 100) ++ [59]; []]) (zrange 0 11).

Definition bench_meter (k : nat) : Q := (inject_Z (Z.of_nat k) - 5)%Q.

Definition empty_table : cal_table := {| t_adc := four None; t_dac := four None |}.

(** A session whose calibration file exists and holds no calibration. *)
Definition w_cal_file : shield :=
  init_state bench_script bench_meter (Some "calibration.pkl"%string) (Some empty_table).

(** A session with a calibration location whose file does not exist. *)
Definition w_no_file : shield :=
  init_state bench_script bench_meter (Some "calibration.pkl"%string) None.

(** [s_ack] with the DAC line [2 v + 1] stored for every channel. *)
Definition s_dac_cal : shield :=
  set_heap [four None; four (Some {| p_slope := 2; p_icept := 1 |})] s_ack.

(** A stub device that acknowledges eight commands with an empty payload. *)
Definition s_ack8 : shield := stub (List.concat (repeat [[59]; []] 8)).

(** Apply [f] to the value and [g] to the state of a normal return. *)
Definition map_ok {A B} (f : A -> B) (g : shield -> shield) (o : outcome A) : outcome B :=
  match o with
  | Ok a w => Ok (f a) (g w)
  | Err e w => Err e w
  | Hang => Hang
  end.

(* ================================================================== *)
(** * Proofs *)

(** ** Codec *)

Lemma byte_ok_ords (s : string) : forallb byte_ok (ords s) = true.
Proof.
  unfold ords. induction (list_ascii_of_string s) as [|a l IH]; simpl; [reflexivity|].
  rewrite IH, andb_true_r. unfold byte_ok.
  pose proof (nat_ascii_bounded a). apply andb_true_intro; split; apply Z.leb_le; lia.
Qed.

Lemma encode_num_bytes (arg : Z) :
  0 <= arg <= 65535 ->
  Z.shiftr arg 8 = arg / 256 /\ Z.land arg 255 = arg mod 256.
Proof.
  intros H. split.
  - rewrite Z.shiftr_div_pow2 by lia. reflexivity.
  - change 255 with (Z.ones 8). rewrite Z.land_ones by lia. reflexivity.
Qed.

Lemma frame_spec (identifier : string) (arg : Z) :
  0 <= arg <= 65535 ->
  frame identifier arg = Some (ords identifier ++ encode_num arg).
Proof.
  intros H. unfold frame, bytearray_extend. rewrite byte_ok_ords.
  destruct (encode_num_bytes arg H) as [E1 E2].
  unfold encode_num. rewrite E1, E2. simpl.
  assert (B1 : byte_ok (arg / 256) = true).
  { unfold byte_ok.
    assert (0 <= arg / 256) by (apply Z.div_pos; lia).
    assert (arg / 256 < 256) by (apply Z.div_lt_upper_bound; lia).
    apply andb_true_intro; split; apply Z.leb_le; lia. }
  assert (B2 : byte_ok (arg mod 256) = true).
  { unfold byte_ok. pose proof (Z.mod_pos_bound arg 256).
    apply andb_true_intro; split; apply Z.leb_le; lia. }
  rewrite B1, B2. reflexivity.
Qed.

(** C7. A command frame is the two identifier bytes followed by the 16-bit
    argument in big-endian order, high byte [arg >> 8] then low byte
    [arg & 0xFF]; [("v0", 0x1234)] gives [['v'; '0'; 0x12; 0x34]]. *)
Theorem frame_big_endian (identifier : string) (arg : Z) :
  0 <= arg <= 65535 ->
  frame identifier arg = Some (ords identifier ++ [Z.shiftr arg 8; Z.land arg 255])
  /\ 0 <= Z.shiftr arg 8 <= 255 /\ 0 <= Z.land arg 255 <= 255
  /\ arg = 256 * Z.shiftr arg 8 + Z.land arg 255
  /\ frame "v0" 4660 = Some [118; 48; 18; 52].
Proof.
  intros H. destruct (encode_num_bytes arg H) as [E1 E2].
  rewrite frame_spec by exact H. unfold encode_num.
  rewrite E1, E2. pose proof (Z.mod_pos_bound arg 256).
  pose proof (Z.div_mod arg 256).
  assert (0 <= arg / 256) by (apply Z.div_pos; lia).
  assert (arg / 256 < 256) by (apply Z.div_lt_upper_bound; lia).
  repeat split; try reflexivity; lia.
Qed.

Lemma frame_big_endian_witness :
  (0 <= 4660 <= 65535) /\ frame "v0" 4660 = Some (ords "v0" ++ [18; 52]).
Proof.
  split; [lia|].
  destruct (frame_big_endian "v0" 4660) as [H _]; [lia|]. exact H.
Defined.

(** For a non-negative rational, truncation is the floor. *)
Lemma py_int_floor (q : Q) : (0 <= q)%Q -> py_int q = Qfloor q.
Proof.
  destruct q as [n d]. unfold Qle, py_int, Qfloor. simpl. intros H.
  apply Z.quot_div_nonneg; lia.
Qed.

Lemma volts_to_bits_floor (v : Q) :
  (-5 <= v)%Q -> volts_to_bits v = Qfloor ((13107 * v + 65535) / 2).
Proof.
  intros H. unfold volts_to_bits. apply py_int_floor.
  apply Qle_shift_div_l; [reflexivity|]. lra.
Qed.

(** C5 (counterexample). At [v = 0.1] the code gives
    [int(33422.85) = 33422], the nearest integer is [33423]. *)
Lemma volts_to_bits_not_rounded :
  ~ (forall v : Q, (-5 <= v <= 5)%Q -> volts_to_bits v = volts_to_bits_spec v).
Proof.
  intros H. specialize (H (1 # 10)).
  assert (R : (-5 <= 1 # 10 <= 5)%Q) by (split; vm_compute; discriminate).
  specialize (H R). vm_compute in H. discriminate H.
Qed.

(** C5 (amended). On [[-5, 5]], [volts_to_bits v] is the floor (the
    truncation) of [(13107*v + 65535) / 2]. *)
Theorem volts_to_bits_truncates (v : Q) :
  (-5 <= v <= 5)%Q -> volts_to_bits v = Qfloor ((13107 * v + 65535) / 2).
Proof.
  intros [H _]. apply volts_to_bits_floor. exact H.
Qed.

Lemma volts_to_bits_truncates_witness :
  (-5 <= 1 # 10 <= 5)%Q /\ volts_to_bits (1 # 10) = 33422.
Proof.
  assert (R : (-5 <= 1 # 10 <= 5)%Q) by (split; vm_compute; discriminate).
  split; [exact R|].
  rewrite (volts_to_bits_truncates (1 # 10) R). vm_compute. reflexivity.
Defined.

(** C6. For [v] in [[-5, 5]], [bits_to_volts (volts_to_bits v)] is within
    one quantization step [2/13107] of [v]. *)
Theorem volts_bits_roundtrip (v : Q) :
  (-5 <= v <= 5)%Q -> (Qabs (bits_to_volts (volts_to_bits v) - v) <= 2 # 13107)%Q.
Proof.
  intros [H1 H2]. rewrite volts_to_bits_floor by exact H1.
  set (x := ((13107 * v + 65535) / 2)%Q).
  pose proof (Qfloor_le x) as L. pose proof (Qlt_floor x) as U.
  rewrite inject_Z_plus in U. unfold bits_to_volts.
  apply Qabs_Qle_condition. unfold x, Qdiv in *.
  change (/ 2)%Q with (1 # 2)%Q in *. change (/ 13107)%Q with (1 # 13107)%Q in *.
  change (inject_Z 1) with 1%Q in U. clear x.
  generalize dependent (inject_Z (Qfloor ((13107 * v + 65535) * (1 # 2))));
  intros b L U. split; lra.
Qed.

Lemma volts_bits_roundtrip_witness :
  (-5 <= 1 # 10 <= 5)%Q /\
  (Qabs (bits_to_volts (volts_to_bits (1 # 10)) - (1 # 10)) <= 2 # 13107)%Q.
Proof.
  assert (R : (-5 <= 1 # 10 <= 5)%Q) by (split; vm_compute; discriminate).
  split; [exact R | exact (volts_bits_roundtrip (1 # 10) R)].
Defined.

(** ** Protocol engine *)

Lemma last_byte_snoc (l : list Z) (b : Z) : last_byte (l ++ [b]) = Some b.
Proof.
  induction l as [|x l IH]; [reflexivity|].
  simpl. destruct (l ++ [b]) eqn:E; [destruct l; discriminate|]. exact IH.
Qed.

Lemma last_byte_In (l : list Z) (b : Z) : last_byte l = Some b -> In b l.
Proof.
  induction l as [|x l IH]; simpl; [discriminate|].
  destruct l as [|y l].
  - intros H. inversion H. left; reflexivity.
  - intros H. right. apply IH. exact H.
Qed.

Lemma ends_last (l : list Z) : ends_in_terminator l = true -> last_byte l = Some terminator.
Proof.
  unfold ends_in_terminator. destruct (last_byte l) as [b|]; [|discriminate].
  intros H. apply Z.eqb_eq in H. subst. reflexivity.
Qed.

Lemma ends_snoc (p : list Z) : ends_in_terminator (p ++ [terminator]) = true.
Proof. unfold ends_in_terminator. rewrite last_byte_snoc. apply Z.eqb_refl. Qed.

(** A prefix of [p ++ [;]] that ends in [;] is all of it when [p] holds no
    terminator. *)
Lemma terminated_prefix (l m p : list Z) :
  l ++ m = p ++ [terminator] -> ends_in_terminator l = true -> ~ In terminator p ->
  l = p ++ [terminator].
Proof.
  intros E T N.
  destruct m as [|y m] using rev_ind.
  - rewrite app_nil_r in E. exact E.
  - rewrite app_assoc in E. apply app_inj_tail in E as [E _].
    exfalso. apply N. rewrite <- E. apply in_or_app. left.
    apply last_byte_In. apply ends_last. exact T.
Qed.

(** One [device.read()] on the scripted input, against [firstn]/[skipn]. *)
Lemma read_chunk_split (cs : list (list Z)) (k : nat) :
  List.concat (firstn (S k) cs) = fst (read_chunk cs) ++ List.concat (firstn k (snd (read_chunk cs)))
  /\ skipn (S k) cs = skipn k (snd (read_chunk cs)).
Proof. destruct cs as [|c cs]; simpl; [destruct k|]; auto. Qed.

Lemma read_chunk_concat (cs : list (list Z)) :
  fst (read_chunk cs) ++ List.concat (snd (read_chunk cs)) = List.concat cs.
Proof. destruct cs; reflexivity. Qed.

(** The receive loop stops at the first poll after which the buffer ends in
    the terminator, and returns that buffer. *)
Lemma recv_loop_exit (n : nat) (buf : list Z) (cs : list (list Z)) r cs' :
  recv_loop n buf cs = Some (r, cs') ->
  exists k, (k < n)%nat /\ r = buf ++ List.concat (firstn (S k) cs) /\ cs' = skipn (S k) cs
    /\ ends_in_terminator r = true
    /\ forall j, (j < k)%nat -> ends_in_terminator (buf ++ List.concat (firstn (S j) cs)) = false.
Proof.
  revert buf cs. induction n as [|n IH]; intros buf cs H; [discriminate|].
  simpl in H. destruct (read_chunk cs) as [c cs0] eqn:E.
  pose proof (fun k => read_chunk_split cs k) as S. rewrite E in S. cbn [fst snd] in S.
  destruct (ends_in_terminator (buf ++ c)) eqn:T.
  - inversion H; subst. exists 0%nat. destruct (S 0%nat) as [S1 S2].
    rewrite S1, S2. simpl. rewrite !app_nil_r. repeat split; auto; [lia|].
    intros j Hj. lia.
  - destruct (IH _ _ H) as [k [Hk [Hr [Hc [Ht Hj]]]]].
    exists (Datatypes.S k). destruct (S (Datatypes.S k)) as [S1 S2].
    rewrite S1, S2, app_assoc. repeat split; auto; [lia|].
    intros j Hlt. destruct j as [|j].
    + destruct (S 0%nat) as [S0 _]. rewrite S0. simpl. rewrite app_nil_r. exact T.
    + destruct (S (Datatypes.S j)) as [S0 _]. rewrite S0, app_assoc. apply Hj. lia.
Qed.

(** When the input is [p ++ [;]] with no terminator in [p], enough polls
    reach it, whatever the chunking. *)
Lemma recv_loop_complete (p : list Z) :
  ~ In terminator p ->
  forall cs buf n, buf ++ List.concat cs = p ++ [terminator] -> (List.length cs < n)%nat ->
  exists cs', recv_loop n buf cs = Some (p ++ [terminator], cs').
Proof.
  intros N cs. induction cs as [|c cs IH]; intros buf n E Hn;
    (destruct n as [|n]; [simpl in Hn; lia|]); simpl.
  - simpl in E. rewrite app_nil_r in *. rewrite E, ends_snoc. eexists; reflexivity.
  - destruct (ends_in_terminator (buf ++ c)) eqn:T.
    + rewrite (terminated_prefix (buf ++ c) (List.concat cs) p); auto.
      * eexists; reflexivity.
      * rewrite <- app_assoc. exact E.
    + apply IH; [rewrite <- app_assoc; exact E | simpl in Hn; lia].
Qed.

Lemma string_length_list (l : list ascii) : String.length (string_of_list_ascii l) = List.length l.
Proof. induction l; simpl; auto. Qed.

Lemma strip_last_snoc (l : list ascii) (a : ascii) :
  strip_last (string_of_list_ascii (l ++ [a])) = string_of_list_ascii l.
Proof.
  unfold strip_last. rewrite string_length_list, length_app. simpl.
  rewrite Nat.add_sub. induction l as [|x l IH]; simpl; [reflexivity|].
  rewrite IH. reflexivity.
Qed.

Lemma strip_decode (p : list Z) (b : Z) :
  strip_last (decode_latin1 (p ++ [b])) = decode_latin1 p.
Proof. unfold decode_latin1. rewrite map_app. apply strip_last_snoc. Qed.

(** C2. If the device delivers [p] followed by the terminator [0x3B], in any
    chunking (single bytes, empty reads in between), and [p] holds no
    terminator, then [write] returns exactly [p] decoded: with enough polls
    it does, and at no poll bound does it return anything else (it is still
    blocking instead). *)
Theorem write_reassembles (identifier : string) (arg : Z) (w : shield) (p : list Z) :
  0 <= arg <= 65535 ->
  List.concat (dev_in w) = p ++ [terminator] ->
  ~ In terminator p ->
  (exists fuel w', write fuel identifier arg w = Ok (decode_latin1 p) w')
  /\ (forall fuel, write fuel identifier arg w = Hang
                   \/ exists w', write fuel identifier arg w = Ok (decode_latin1 p) w').
Proof.
  intros Harg Hin N. unfold write. rewrite frame_spec by exact Harg.
  pose proof (read_chunk_concat (dev_in w)) as C.
  destruct (read_chunk (dev_in w)) as [c0 cs] eqn:E. simpl in C.
  split.
  - destruct (recv_loop_complete p N cs c0 (Datatypes.S (List.length cs))) as [cs' R];
      [rewrite C; exact Hin | lia|].
    exists (Datatypes.S (List.length cs)). rewrite R, strip_decode. eexists; reflexivity.
  - intros fuel. destruct (recv_loop fuel c0 cs) as [[r cs']|] eqn:R; [right|left; reflexivity].
    destruct (recv_loop_exit _ _ _ _ _ R) as [k [_ [Hr [_ [Ht _]]]]].
    assert (Hp : r = p ++ [terminator]).
    { apply (terminated_prefix r (List.concat (skipn (Datatypes.S k) cs)) p); auto.
      rewrite Hr, <- app_assoc, <- concat_app, firstn_skipn, C. exact Hin. }
    rewrite Hp, strip_decode. eexists; reflexivity.
Qed.

(** C9. When [write] returns, it has consumed [k >= 2] reads (the first
    read happens before the loop, the check after every later one); the
    buffer after read [k] ends in the terminator, the buffer after each
    earlier read [j >= 2] does not, and the response is that buffer without
    its last byte.  A terminator inside a chunk that is followed by other
    bytes leaves the buffer not ending in [;] and so never ends the loop. *)
Theorem write_exits_at_terminator (fuel : nat) (identifier : string) (arg : Z)
    (w : shield) (r : string) (w' : shield) :
  write fuel identifier arg w = Ok r w' ->
  exists k, (2 <= k)%nat
    /\ dev_in w' = skipn k (dev_in w)
    /\ ends_in_terminator (List.concat (firstn k (dev_in w))) = true
    /\ (forall j, (2 <= j < k)%nat -> ends_in_terminator (List.concat (firstn j (dev_in w))) = false)
    /\ r = strip_last (decode_latin1 (List.concat (firstn k (dev_in w)))).
Proof.
  unfold write. destruct (frame identifier arg) as [bs|]; [|discriminate].
  pose proof (fun k => read_chunk_split (dev_in w) k) as S.
  destruct (read_chunk (dev_in w)) as [c0 cs] eqn:E. cbn [fst snd] in S.
  destruct (recv_loop fuel c0 cs) as [[resp cs']|] eqn:R; [|discriminate].
  intros H. inversion H; subst; clear H.
  destruct (recv_loop_exit _ _ _ _ _ R) as [k [_ [Hr [Hc [Ht Hj]]]]].
  exists (Datatypes.S (Datatypes.S k)). destruct (S (Datatypes.S k)) as [S1 S2].
  rewrite S1, S2, <- Hr, <- Hc. repeat split; auto; [lia|].
  intros j [Hlo Hhi]. destruct j as [|[|j]]; try lia.
  destruct (S (Datatypes.S j)) as [S0 _]. rewrite S0. apply Hj. lia.
Qed.

Lemma write_exits_at_terminator_witness :
  write 5 "A0" 1 w_split = Ok "1;2"%string (set_io [[65; 48; 0; 1]] [] w_split)
  /\ exists k, (2 <= k)%nat
    /\ dev_in (set_io [[65; 48; 0; 1]] [] w_split) = skipn k (dev_in w_split)
    /\ ends_in_terminator (List.concat (firstn k (dev_in w_split))) = true
    /\ (forall j, (2 <= j < k)%nat -> ends_in_terminator (List.concat (firstn j (dev_in w_split))) = false)
    /\ "1;2"%string = strip_last (decode_latin1 (List.concat (firstn k (dev_in w_split)))).
Proof.
  assert (H : write 5 "A0" 1 w_split = Ok "1;2"%string (set_io [[65; 48; 0; 1]] [] w_split))
    by (vm_compute; reflexivity).
  split; [exact H|].
  exact (write_exits_at_terminator 5 "A0" 1 w_split "1;2" _ H).
Defined.

Lemma write_reassembles_witness :
  (0 <= 1 <= 65535 /\ List.concat (dev_in w_bytes) = [56; 48] ++ [terminator]
   /\ ~ In terminator [56; 48])
  /\ exists fuel w', write fuel "A0" 1 w_bytes = Ok "80"%string w'.
Proof.
  assert (H1 : 0 <= 1 <= 65535) by lia.
  assert (H2 : List.concat (dev_in w_bytes) = [56; 48] ++ [terminator]) by reflexivity.
  assert (H3 : ~ In terminator [56; 48]) by (simpl; unfold terminator; lia).
  split; [auto|].
  exact (proj1 (write_reassembles "A0" 1 w_bytes [56; 48] H1 H2 H3)).
Defined.

(** ** Channel-scoped operations *)

(** C3 (code bug). [analog_write] has no [else] branch after
    [elif 0 <= channel <= 3]: [analog_write(-1, 0)] reads
    [dac_correct[-1]] (the last channel), warns and returns [None] without a
    command, and [analog_write(4, 0, correct=False)] returns [None] as well;
    [analog_write(4, 0)] raises [IndexError] from [dac_correct[4]], not the
    invalid-channel [ValueError].  [analog_read(-1)] raises the
    invalid-channel [ValueError], and [analog_write(0, 0)] and
    [analog_read(0)] succeed on an echoing stub. *)
Theorem analog_channel_validation :
  analog_write 5 (ChInt (-1)) 0 true s_fresh = Ok None (add_warn (DacUncalibrated (ChInt (-1))) s_fresh)
  /\ analog_write 5 (ChInt 4) 0 false s_fresh = Ok None s_fresh
  /\ analog_write 5 (ChInt 4) 0 true s_fresh = Err IndexError s_fresh
  /\ analog_read 5 (ChInt (-1)) 1 true s_fresh = Err (ValueError (InvalidChannel (ChInt (-1)))) s_fresh
  /\ is_ok (analog_write 5 (ChInt 0) 0 true s_echo) = true
  /\ is_ok (analog_read 5 (ChInt 0) 1 true s_echo) = true.
Proof. repeat split; vm_compute; reflexivity. Qed.

(** ** Ramp setters *)

(** C4 (code bug). [ramp_offset] has no [else] branch: [ramp_offset(0, -6)]
    returns [None] and raises nothing, while [ramp_amplitude(0, 6)] raises
    its range [ValueError] and [ramp_amplitude(0, 5)] succeeds. *)
Theorem ramp_range_rejection :
  ramp_amplitude 5 (ChInt 0) (Some 6%Q) s_fresh = Err (ValueError AmplitudeRange) s_fresh
  /\ ramp_offset 5 (ChInt 0) (Some (-6)%Q) s_fresh = Ok PNone s_fresh
  /\ is_ok (ramp_amplitude 5 (ChInt 0) (Some 5%Q) s_ack) = true.
Proof. repeat split; vm_compute; reflexivity. Qed.

(** C8 (code bug). The claim: a ramp setter rejected for an out-of-range
    argument issues no device command, in particular never ["rc"] without
    its parameter command. [ramp_period] checks only [time > 0] and has no
    upper bound, so [ramp_period(0, 70000)] stores 70000 in the cache,
    sends ["rc"] and then [write("rp", 70000)] fails in [bytearray] on the
    high byte [70000 >> 8 = 273]: the call is rejected with a range error
    after the channel-select command, no ["rp"] follows, and the cache
    reports the rejected period. Its sibling [ramp_amplitude], which checks
    its whole range first, rejects [ramp_amplitude(0, 6)] before any
    command and leaves the session unchanged. *)
Theorem ramp_period_partial_select :
  match ramp_period 5 (ChInt 0) (Some 70000) s_ack with
  | Err (ValueError ByteRange) w' =>
      dev_sent w' = [[114; 99; 0; 0]]
      /\ ramp_period 5 (ChInt 0) None w' = Ok (PInt 70000) w'
  | _ => False
  end
  /\ dev_sent s_ack = []
  /\ ramp_amplitude 5 (ChInt 0) (Some 6%Q) s_ack = Err (ValueError AmplitudeRange) s_ack.
Proof. vm_compute. repeat split; reflexivity. Qed.

(** ** Calibration *)

(** The calibration part of the state: the heap of correction lists, the
    two references, the location and the file. *)
Definition cal_frame (w w' : shield) : Prop :=
  heap w' = heap w /\ adc_ref w' = adc_ref w /\ dac_ref w' = dac_ref w
  /\ calibration_location w' = calibration_location w /\ cal_file w' = cal_file w.

Definition keeps {A} (m : M A) : Prop := forall w a w', m w = Ok a w' -> cal_frame w w'.

Lemma cal_frame_refl w : cal_frame w w.
Proof. repeat split. Qed.

Lemma cal_frame_trans w1 w2 w3 : cal_frame w1 w2 -> cal_frame w2 w3 -> cal_frame w1 w3.
Proof. unfold cal_frame. intuition congruence. Qed.

Lemma bind_ok {A B} (m : M A) (k : A -> M B) w b w' :
  bind m k w = Ok b w' -> exists a w1, m w = Ok a w1 /\ k a w1 = Ok b w'.
Proof. unfold bind. destruct (m w); try discriminate. eauto. Qed.

Lemma keeps_bind {A B} (m : M A) (k : A -> M B) :
  keeps m -> (forall a, keeps (k a)) -> keeps (bind m k).
Proof.
  intros Hm Hk w b w' H. destruct (bind_ok _ _ _ _ _ H) as [a [w1 [H1 H2]]].
  eapply cal_frame_trans; [eapply Hm | eapply Hk]; eassumption.
Qed.

Lemma keeps_ret {A} (a : A) : keeps (ret a).
Proof. intros w b w' H. inversion H; subst. apply cal_frame_refl. Qed.

Lemma keeps_raise {A} (e : py_error) : keeps (@raise A e).
Proof. intros w b w' H. discriminate. Qed.

Lemma keeps_get : keeps get.
Proof. intros w b w' H. inversion H; subst. apply cal_frame_refl. Qed.

Lemma keeps_modify (f : shield -> shield) : (forall w, cal_frame w (f w)) -> keeps (modify f).
Proof. intros Hf w b w' H. inversion H; subst. apply Hf. Qed.

Lemma keeps_warn x : keeps (warn x).
Proof. apply keeps_modify. intros w. repeat split. Qed.

Lemma keeps_getitem {A} (l : list A) ch : keeps (py_getitem l ch).
Proof.
  unfold py_getitem. destruct ch; [|apply keeps_raise].
  destruct (py_norm _ _); [destruct (nth_error _ _)|]; auto using keeps_ret, keeps_raise.
Qed.

Lemma keeps_write fuel identifier arg : keeps (write fuel identifier arg).
Proof.
  intros w b w' H. unfold write in H. destruct (frame identifier arg); [|discriminate].
  destruct (read_chunk (dev_in w)). destruct (recv_loop _ _ _) as [[]|]; [|discriminate].
  inversion H; subst. repeat split.
Qed.

Lemma keeps_map_m {A B} (f : A -> M B) (l : list A) :
  (forall x, keeps (f x)) -> keeps (map_m f l).
Proof.
  intros Hf. induction l as [|x l IH]; simpl; [apply keeps_ret|].
  apply keeps_bind; [apply Hf|intros y]. apply keeps_bind; [exact IH|intros ys]. apply keeps_ret.
Qed.

Lemma keeps_py_int16 x : keeps (py_int16 x).
Proof.
  unfold py_int16. destruct x; [apply keeps_raise|].
  destruct (hex_val _ _); [apply keeps_ret | apply keeps_raise].
Qed.

Ltac keep_tac :=
  repeat first
    [ apply keeps_bind; [|intro]
    | apply keeps_ret | apply keeps_raise | apply keeps_get | apply keeps_warn
    | apply keeps_getitem | apply keeps_write | apply keeps_py_int16
    | apply keeps_map_m; intro
    | progress cbv zeta
    | match goal with
      | |- keeps (if ?b then _ else _) => destruct b
      | |- keeps (match ?x with _ => _ end) => destruct x
      end ].

Lemma keeps_analog_write fuel ch val correct : keeps (analog_write fuel ch val correct).
Proof. unfold analog_write. keep_tac. Qed.

Lemma keeps_analog_read fuel ch samples correct : keeps (analog_read fuel ch samples correct).
Proof. unfold analog_read. keep_tac. Qed.

Lemma keeps_multimeter : keeps multimeter_voltage.
Proof.
  unfold multimeter_voltage. apply keeps_bind; [apply keeps_get|intros w0].
  apply keeps_bind; [apply keeps_modify; intros w; repeat split | intros _; apply keeps_ret].
Qed.

Lemma keeps_adc_sweep fuel ch vs : keeps (adc_sweep fuel ch vs).
Proof.
  induction vs as [|v vs IH]; simpl; [apply keeps_ret|].
  apply keeps_bind; [apply keeps_analog_write|intros _].
  apply keeps_bind; [apply keeps_multimeter|intros v_actual].
  apply keeps_bind; [apply keeps_analog_read|intros rs].
  apply keeps_bind; [exact IH|intros rest]. apply keeps_ret.
Qed.

Lemma length_upd {A} (k : nat) (v : A) (l : list A) : List.length (upd k v l) = List.length l.
Proof. revert k. induction l as [|x l IH]; intros [|k]; simpl; auto. Qed.

Lemma nth_upd_same {A} (r : nat) (x d : A) (h : list A) :
  (r < List.length h)%nat -> nth r (upd r x h) d = x.
Proof. revert r. induction h as [|y h IH]; intros [|r] H; simpl in *; try lia; auto. apply IH. lia. Qed.

Lemma nth_upd_other {A} (r r' : nat) (x d : A) (h : list A) :
  r <> r' -> nth r' (upd r x h) d = nth r' h d.
Proof.
  revert r r'. induction h as [|y h IH]; intros [|r] [|r'] H; simpl; auto; try lia.
Qed.

Lemma nth_error_upd_same {A} (k : nat) (v : A) (l : list A) :
  (k < List.length l)%nat -> nth_error (upd k v l) k = Some v.
Proof. revert k. induction l as [|x l IH]; intros [|k] H; simpl in *; try lia; auto. apply IH. lia. Qed.

Lemma py_norm_lt n i k : py_norm n i = Some k -> (k < n)%nat.
Proof.
  unfold py_norm. destruct ((0 <=? i) && (i <? Z.of_nat n)) eqn:E1.
  - intros H. inversion H; subst. apply andb_true_iff in E1 as [A B].
    apply Z.leb_le in A. apply Z.ltb_lt in B. lia.
  - destruct ((- Z.of_nat n <=? i) && (i <? 0)) eqn:E2; [|discriminate].
    intros H. inversion H; subst. apply andb_true_iff in E2 as [A B].
    apply Z.leb_le in A. apply Z.ltb_lt in B. lia.
Qed.

(** A successful [lst[c] = v] on heap location [r]. *)
Lemma heap_setitem_ok r ch v w u w' :
  heap_setitem r ch v w = Ok u w' ->
  exists i k, ch = ChInt i /\ py_norm (List.length (deref w r)) i = Some k
    /\ (r < List.length (heap w))%nat
    /\ w' = set_heap (upd r (upd k v (deref w r)) (heap w)) w.
Proof.
  unfold heap_setitem, bind, get, py_setitem, modify, raise, ret.
  destruct ch as [i|]; [|discriminate].
  destruct (py_norm (List.length (deref w r)) i) as [k|] eqn:N; [|discriminate].
  intros H. inversion H; subst. exists i, k. repeat split; auto.
  destruct (Nat.lt_ge_cases r (List.length (heap w))) as [L|L]; auto.
  unfold deref in N. rewrite nth_overflow in N by exact L.
  apply py_norm_lt in N. simpl in N. lia.
Qed.

(** A successful [lst[c]]. *)
Lemma getitem_ok {A} (l : list A) ch w x w' :
  py_getitem l ch w = Ok x w' ->
  w' = w /\ exists i, ch = ChInt i /\ py_lookup l i = Some x.
Proof.
  unfold py_getitem, raise, ret. destruct ch as [i|]; [|discriminate].
  destruct (py_norm (List.length l) i) as [k|] eqn:N; [|discriminate].
  destruct (nth_error l k) eqn:E; [|discriminate].
  intros H. inversion H; subst. split; [reflexivity|].
  exists i. split; [reflexivity|]. unfold py_lookup. rewrite N. exact E.
Qed.

Lemma py_lookup_upd {A} (l : list A) (i : Z) (k : nat) (v : A) :
  py_norm (List.length l) i = Some k -> py_lookup (upd k v l) i = Some v.
Proof.
  intros N. unfold py_lookup. rewrite length_upd, N.
  apply nth_error_upd_same. eapply py_norm_lt. exact N.
Qed.

Ltac bind_step H :=
  apply bind_ok in H; destruct H as [?a [?w [?Hs H]]]; cbv beta iota zeta in H.

(** C10. When a calibration location is configured but its file does not
    exist, a successful [adc_calibrate(c, meter)] writes to the file the
    live lists [self.adc_correct] and [self.dac_correct] themselves (the
    file holds exactly their final contents), and afterwards
    [self.adc_correct[c]] is [self.dac_correct[c]], the entry the DAC list
    held before the call, not the line fitted by the sweep. *)
Theorem adc_calibrate_aliases_without_file (fuel : nat) (c : Z) (w : shield) :
  calibration_location w <> None -> cal_file w = None -> adc_ref w <> dac_ref w ->
  match adc_calibrate fuel (ChInt c) w with
  | Ok _ w' =>
      adc_ref w' = adc_ref w /\ dac_ref w' = dac_ref w
      /\ cal_file w' = Some {| t_adc := deref w' (adc_ref w'); t_dac := deref w' (dac_ref w') |}
      /\ py_lookup (deref w' (adc_ref w')) c = py_lookup (deref w' (dac_ref w')) c
      /\ deref w' (dac_ref w') = deref w (dac_ref w)
  | _ => True
  end.
Proof.
  intros Hloc Hfile Hsep.
  destruct (adc_calibrate fuel (ChInt c) w) as [u w'|e w'|] eqn:H; auto.
  unfold adc_calibrate in H.
  bind_step H. pose proof (keeps_analog_write _ _ _ _ _ _ _ Hs) as F1.
  bind_step H. pose proof (keeps_adc_sweep _ _ _ _ _ _ Hs0) as F2.
  bind_step H. inversion Hs1; subst; clear Hs1.
  bind_step H. destruct (heap_setitem_ok _ _ _ _ _ _ Hs1) as [i1 [k1 [E1 [N1 [L1 W3]]]]].
  inversion E1; subst i1; clear E1.
  bind_step H. inversion Hs2; subst; clear Hs2.
  destruct F1 as [Hh1 [Ha1 [Hd1 [Hl1 Hf1]]]]. destruct F2 as [Hh2 [Ha2 [Hd2 [Hl2 Hf2]]]].
  cbn [calibration_location set_heap] in H. rewrite Hl2, Hl1 in H.
  destruct (calibration_location w) as [path|]; [|congruence]. cbv iota in H.
  bind_step H. unfold open_calibration in Hs2.
  cbn [bind get cal_file set_heap] in Hs2. rewrite Hf2, Hf1, Hfile in Hs2.
  unfold ret in Hs2. inversion Hs2; subst; clear Hs2.
  bind_step H. inversion Hs2; subst; clear Hs2.
  bind_step H. destruct (getitem_ok _ _ _ _ _ Hs2) as [-> [i [Ei Lv]]].
  inversion Ei; subst i; clear Ei Hs2.
  bind_step H. cbn [d_adc d_dac] in Hs2, H.
  destruct (heap_setitem_ok _ _ _ _ _ _ Hs2) as [i2 [k2 [E2 [N2 [L2 W5]]]]].
  inversion E2; subst i2; clear E2 Hs2.
  unfold dump_table, bind, get, modify in H. inversion H; subst; clear H.
  unfold deref in *. cbn [adc_ref dac_ref set_heap set_cal_file cal_file heap] in *.
  rewrite Ha2, Ha1, Hd2, Hd1, Hh2, Hh1 in *.
  set (A := adc_ref w) in *. set (D := dac_ref w) in *. set (h := heap w) in *.
  rewrite !(nth_upd_other A D) in * by exact Hsep.
  rewrite nth_upd_same in N2 by exact L1.
  rewrite !nth_upd_same by (rewrite ?length_upd; exact L1).
  split; [reflexivity|]. split; [reflexivity|]. split; [reflexivity|].
  split; [|reflexivity].
  rewrite (py_lookup_upd _ _ _ _ N2). symmetry. exact Lv.
Qed.

Lemma adc_calibrate_aliases_without_file_witness :
  is_ok (adc_calibrate 3 (ChInt 1) w_no_file) = true
  /\ match adc_calibrate 3 (ChInt 1) w_no_file with
     | Ok _ w' =>
         adc_ref w' = adc_ref w_no_file /\ dac_ref w' = dac_ref w_no_file
         /\ cal_file w' = Some {| t_adc := deref w' (adc_ref w'); t_dac := deref w' (dac_ref w') |}
         /\ py_lookup (deref w' (adc_ref w')) 1 = py_lookup (deref w' (dac_ref w')) 1
         /\ deref w' (dac_ref w') = deref w_no_file (dac_ref w_no_file)
     | _ => True
     end.
Proof.
  split; [vm_compute; reflexivity|].
  apply adc_calibrate_aliases_without_file;
    [vm_compute; discriminate | reflexivity | vm_compute; discriminate].
Defined.

(** C1 (code bug). With an existing calibration file holding no entries,
    [adc_calibrate(0, meter)] fits a line and stores it in
    [self.adc_correct[0]], but line 147 persists [self.dac_correct[0]]
    ([None] here) as the file's ADC entry for channel 0: the file's table
    is unchanged and never receives the fit. *)
Theorem adc_calibrate_persists_dac_entry :
  match adc_calibrate 3 (ChInt 0) w_cal_file with
  | Ok _ w' =>
      cal_file w' = Some empty_table
      /\ py_lookup (t_adc empty_table) 0 = Some None
      /\ exists p, py_lookup (deref w' (adc_ref w')) 0 = Some (Some p)
  | _ => False
  end.
Proof.
  vm_compute. split; [reflexivity|]. split; [reflexivity|]. eexists; reflexivity.
Qed.

(* ================================================================== *)
(** * Further properties of the driver *)

(** ** Codec *)

Lemma volts_to_bits_bounds (v : Q) :
  (-5 <= v <= 5)%Q -> 0 <= volts_to_bits v <= 65535.
Proof.
  intros [H1 H2]. rewrite volts_to_bits_floor by exact H1.
  set (x := ((13107 * v + 65535) / 2)%Q).
  assert (Hx0 : (0 <= x)%Q) by (unfold x; apply Qle_shift_div_l; [reflexivity|]; lra).
  assert (Hx1 : (x <= 65535)%Q) by (unfold x; apply Qle_shift_div_r; [reflexivity|]; lra).
  split.
  - change 0 with (Qfloor 0). apply Qfloor_resp_le. exact Hx0.
  - change 65535 with (Qfloor 65535). apply Qfloor_resp_le. exact Hx1.
Qed.

(** [volts_to_bits] maps the documented range [[-5, 5]] into the 16-bit
    range [[0, 65535]]. *)
Theorem volts_to_bits_range (v : Q) :
  (-5 <= v <= 5)%Q -> 0 <= volts_to_bits v <= 65535.
Proof. apply volts_to_bits_bounds. Qed.

Lemma volts_to_bits_range_witness :
  (-5 <= 5 <= 5)%Q /\ 0 <= volts_to_bits 5 <= 65535.
Proof.
  assert (R : (-5 <= 5 <= 5)%Q) by (split; vm_compute; discriminate).
  split; [exact R | exact (volts_to_bits_range 5 R)].
Defined.

(** [volts_to_bits] is monotone on voltages from [-5] up. *)
Theorem volts_to_bits_monotone (v1 v2 : Q) :
  (-5 <= v1)%Q -> (v1 <= v2)%Q -> volts_to_bits v1 <= volts_to_bits v2.
Proof.
  intros H1 H12. rewrite !volts_to_bits_floor by lra.
  apply Qfloor_resp_le. unfold Qdiv.
  apply Qmult_le_r; [reflexivity|]. lra.
Qed.

Lemma volts_to_bits_monotone_witness :
  (-5 <= 0)%Q /\ (0 <= 1)%Q /\ volts_to_bits 0 <= volts_to_bits 1.
Proof.
  assert (A : (-5 <= 0)%Q) by (vm_compute; discriminate).
  assert (B : (0 <= 1)%Q) by (vm_compute; discriminate).
  repeat split; [exact A | exact B | exact (volts_to_bits_monotone 0 1 A B)].
Defined.

(** [bits_to_volts] maps the 16-bit range [[0, 65535]] into [[-5, 5]]. *)
Theorem bits_to_volts_range (b : Z) :
  0 <= b <= 65535 -> (-5 <= bits_to_volts b <= 5)%Q.
Proof.
  intros [B0 B1]. unfold bits_to_volts.
  assert (I0 : (inject_Z 0 <= inject_Z b)%Q) by (rewrite <- Zle_Qle; exact B0).
  assert (I1 : (inject_Z b <= inject_Z 65535)%Q) by (rewrite <- Zle_Qle; exact B1).
  change (inject_Z 0) with 0%Q in I0. change (inject_Z 65535) with 65535%Q in I1.
  unfold Qdiv. change (/ 13107)%Q with (1 # 13107)%Q. split; lra.
Qed.

(** ** Protocol engine *)

Lemma write_reject fuel identifier arg w :
  ~ (0 <= arg <= 65535) -> write fuel identifier arg w = Err (ValueError ByteRange) w.
Proof.
  intros H. unfold write, frame, bytearray_extend. rewrite byte_ok_ords.
  replace (forallb byte_ok (encode_num arg)) with false; [reflexivity|].
  symmetry. unfold encode_num, byte_ok. simpl.
  destruct (Z.le_gt_cases 0 arg) as [P|N].
  - assert (256 <= Z.shiftr arg 8).
    { rewrite Z.shiftr_div_pow2 by lia. change (2 ^ 8) with 256.
      apply Z.div_le_lower_bound; lia. }
    destruct (0 <=? Z.shiftr arg 8); simpl; [|reflexivity].
    replace (Z.shiftr arg 8 <=? 255) with false by (symmetry; apply Z.leb_gt; lia).
    reflexivity.
  - assert (Z.shiftr arg 8 < 0) by (apply Z.shiftr_neg; lia).
    replace (0 <=? Z.shiftr arg 8) with false by (symmetry; apply Z.leb_gt; lia).
    reflexivity.
Qed.

Lemma write_ok_frame fuel identifier arg w r w' :
  write fuel identifier arg w = Ok r w' ->
  (0 <= arg <= 65535)
  /\ dev_sent w' = dev_sent w ++ [ords identifier ++ encode_num arg]
  /\ w' = set_io (dev_sent w') (dev_in w') w.
Proof.
  intros H.
  assert (R : 0 <= arg <= 65535).
  { destruct (Z_le_dec 0 arg), (Z_le_dec arg 65535); try lia;
      rewrite write_reject in H by lia; discriminate. }
  split; [exact R|].
  unfold write in H.
  destruct (frame identifier arg) as [bs|] eqn:F; [|discriminate].
  unfold frame, bytearray_extend in F. rewrite byte_ok_ords in F.
  destruct (forallb byte_ok (encode_num arg)); [|discriminate].
  inversion F; subst bs; clear F.
  destruct (read_chunk (dev_in w)). destruct (recv_loop _ _ _) as [[]|]; [|discriminate].
  inversion H; subst. split; reflexivity.
Qed.

(** [write] rejects an argument outside [[0, 65535]] with the [bytearray]
    [ValueError] before anything is sent or read; a successful [write] has
    sent exactly the frame [ord(identifier) ++ [arg >> 8, arg & 0xff]]
    and changed nothing but the device's input and output. *)
Theorem write_frame_or_reject (fuel : nat) (identifier : string) (arg : Z) (w : shield) :
  (~ (0 <= arg <= 65535) -> write fuel identifier arg w = Err (ValueError ByteRange) w)
  /\ (forall r w', write fuel identifier arg w = Ok r w' ->
        dev_sent w' = dev_sent w ++ [ords identifier ++ encode_num arg]
        /\ w' = set_io (dev_sent w') (dev_in w') w).
Proof.
  split.
  - apply write_reject.
  - intros r w' H. apply write_ok_frame in H. tauto.
Qed.

Lemma write_frame_or_reject_witness :
  ~ (0 <= 65536 <= 65535) /\ write 5 "rp" 65536 s_ack = Err (ValueError ByteRange) s_ack.
Proof.
  assert (R : ~ (0 <= 65536 <= 65535)) by lia.
  split; [exact R | exact (proj1 (write_frame_or_reject 5 "rp" 65536 s_ack) R)].
Defined.

(** ** The ramp cache *)

Lemma nth_error_upd_other {A} (k k' : nat) (v : A) (l : list A) :
  k <> k' -> nth_error (upd k v l) k' = nth_error l k'.
Proof.
  revert k k'. induction l as [|x l IH]; intros [|k] [|k'] H; simpl; auto; try lia.
Qed.

Lemma py_norm_nonneg n i k : 0 <= i -> py_norm n i = Some k -> k = Z.to_nat i.
Proof.
  unfold py_norm. intros P.
  destruct ((0 <=? i) && (i <? Z.of_nat n)); [congruence|].
  replace (i <? 0) with false by (symmetry; apply Z.ltb_ge; lia).
  rewrite andb_false_r. discriminate.
Qed.

Lemma getitem_at {A} (l : list A) i k x w :
  py_norm (List.length l) i = Some k -> nth_error l k = Some x ->
  py_getitem l (ChInt i) w = Ok x w.
Proof. intros N E. unfold py_getitem. rewrite N, E. reflexivity. Qed.

Lemma getitem_inv {A} (l : list A) i x w w' :
  py_getitem l (ChInt i) w = Ok x w' ->
  w' = w /\ exists k, py_norm (List.length l) i = Some k /\ nth_error l k = Some x.
Proof.
  unfold py_getitem, raise, ret.
  destruct (py_norm (List.length l) i) as [k|]; [|discriminate].
  destruct (nth_error l k) eqn:E; [|discriminate].
  intros H. inversion H; subst. eauto.
Qed.

(** The shape shared by the single-channel setters: cache the value,
    select the channel, send the parameter command. *)
Lemma cache_set_ok {T} fuel (getf : ramp_cache -> list T)
    (setf : list T -> ramp_cache -> ramp_cache) (c : Z) (x : T)
    (identifier : string) (bits : Z) w r w' :
  (w0 <- get ;;
   l <- py_setitem (getf (ramp w0)) (ChInt c) x ;;
   modify (set_ramp (setf l (ramp w0))) ;;;
   select_channel fuel (ChInt c) ;;;
   r <- write fuel identifier bits ;;
   ret (PStr r)) w = Ok r w' ->
  0 <= c <= 65535
  /\ exists k, py_norm (List.length (getf (ramp w))) c = Some k
    /\ ramp w' = setf (upd k x (getf (ramp w))) (ramp w)
    /\ dev_sent w' = dev_sent w ++ [ords "rc" ++ encode_num c; ords identifier ++ encode_num bits].
Proof.
  unfold bind at 1, get at 1. cbv beta.
  unfold py_setitem at 1.
  destruct (py_norm (List.length (getf (ramp w))) c) as [k|] eqn:N; [|discriminate].
  unfold bind at 1, ret at 1. cbv beta.
  unfold bind at 1, modify at 1. cbv beta.
  unfold bind at 1, select_channel.
  destruct (write fuel "rc" c _) as [r1 w1| |] eqn:W1; try discriminate.
  unfold bind. destruct (write fuel identifier bits w1) as [r2 w2| |] eqn:W2; try discriminate.
  unfold ret. intros H. inversion H; subst w'; clear H.
  apply write_ok_frame in W1 as [R [S1 E1]]. apply write_ok_frame in W2 as [_ [S2 E2]].
  split; [exact R|]. exists k. split; [reflexivity|]. split.
  - rewrite E2, E1. reflexivity.
  - rewrite S2, S1. simpl. rewrite <- app_assoc. reflexivity.
Qed.

(** The getter side of the cache after [upd]: the written channel reads
    back the value, any other non-negative channel what it read before. *)
Lemma cache_get_after {T} (l : list T) (c : Z) (k : nat) (x : T) w :
  0 <= c -> py_norm (List.length l) c = Some k ->
  py_getitem (upd k x l) (ChInt c) w = Ok x w
  /\ (forall c' v w0, 0 <= c' -> c' <> c -> py_getitem l (ChInt c') w0 = Ok v w0 ->
        py_getitem (upd k x l) (ChInt c') w = Ok v w).
Proof.
  intros P N. split.
  - apply getitem_at with k; [rewrite length_upd; exact N|].
    apply nth_error_upd_same. eapply py_norm_lt. exact N.
  - intros c' v w0 P' D G. apply getitem_inv in G as [_ [k' [N' E']]].
    apply getitem_at with k'; [rewrite length_upd; exact N'|].
    rewrite nth_error_upd_other; [exact E'|].
    apply py_norm_nonneg in N; [|lia]. apply py_norm_nonneg in N'; [|lia]. lia.
Qed.

Lemma qle_guard (lo hi a : Q) : Qle_bool lo a && Qle_bool a hi = true -> (lo <= a <= hi)%Q.
Proof. intros H. apply andb_true_iff in H as [A B]. apply Qle_bool_iff in A, B. auto. Qed.

(** A successful [ramp_amplitude(c, amp)] on one channel caches [amp]
    (a later [ramp_amplitude(c)] returns it without talking to the
    device), keeps every other non-negative channel's cached amplitude and
    the rest of the cache, and has sent exactly ["rc" c] then
    ["ra" volts_to_bits(amp)]. *)
Theorem ramp_amplitude_write_through (fuel : nat) (c : Z) (a : Q) (w : shield) r w' :
  ramp_amplitude fuel (ChInt c) (Some a) w = Ok r w' ->
  ramp_amplitude fuel (ChInt c) None w' = Ok (PNum a) w'
  /\ (forall c' v, 0 <= c' -> c' <> c ->
        ramp_amplitude fuel (ChInt c') None w = Ok (PNum v) w ->
        ramp_amplitude fuel (ChInt c') None w' = Ok (PNum v) w')
  /\ ramp w' = with_amplitude (r_amplitude (ramp w')) (ramp w)
  /\ dev_sent w' = dev_sent w ++ [ords "rc" ++ encode_num c; ords "ra" ++ encode_num (volts_to_bits a)].
Proof.
  unfold ramp_amplitude, ramp_amplitude_one. simpl is_str. cbv iota.
  destruct (Qle_bool 0 a && Qle_bool a 5); [|discriminate].
  intros H. apply cache_set_ok in H as [R [k [N [Rm S]]]].
  destruct (cache_get_after _ c k a w' ltac:(lia) N) as [G1 G2].
  unfold bind, get, ret.
  split; [|split; [|split]].
  - unfold is_str. cbv beta iota. rewrite Rm. cbn [r_amplitude with_amplitude].
    rewrite G1. reflexivity.
  - intros c' v P D G. unfold is_str in G |- *. cbv beta iota in G |- *.
    destruct (py_getitem (r_amplitude (ramp w)) (ChInt c') w) as [q w0| |] eqn:E;
      try discriminate.
    inversion G; subst. rewrite Rm. cbn [r_amplitude with_amplitude].
    rewrite (G2 c' v w P D E). reflexivity.
  - rewrite Rm. reflexivity.
  - exact S.
Qed.

Lemma ramp_amplitude_write_through_witness :
  is_ok (ramp_amplitude 5 (ChInt 1) (Some 2%Q) s_ack) = true
  /\ match ramp_amplitude 5 (ChInt 1) (Some 2%Q) s_ack with
     | Ok r w' =>
         ramp_amplitude 5 (ChInt 1) None w' = Ok (PNum 2) w'
         /\ (forall c' v, 0 <= c' -> c' <> 1 ->
               ramp_amplitude 5 (ChInt c') None s_ack = Ok (PNum v) s_ack ->
               ramp_amplitude 5 (ChInt c') None w' = Ok (PNum v) w')
         /\ ramp w' = with_amplitude (r_amplitude (ramp w')) (ramp s_ack)
         /\ dev_sent w' = dev_sent s_ack ++ [ords "rc" ++ encode_num 1;
                                              ords "ra" ++ encode_num (volts_to_bits 2)]
     | _ => True
     end.
Proof.
  split; [vm_compute; reflexivity|].
  destruct (ramp_amplitude 5 (ChInt 1) (Some 2%Q) s_ack) as [r w'| |] eqn:E; try exact I.
  exact (ramp_amplitude_write_through 5 1 2 s_ack r w' E).
Defined.

(** The tail shared by the write-through proofs, once the setter has been
    reduced to the shape of [cache_set_ok]. *)
Ltac write_through H :=
  apply cache_set_ok in H as [?R [?k [?N [?Rm ?S]]]];
  match type of Rm with
  | ramp ?w' = _ (upd ?k ?x _) _ =>
      match type of N with
      | py_norm _ ?c = Some _ =>
          destruct (cache_get_after _ c k x w' ltac:(lia) N) as [?G1 ?G2]
      end
  end;
  unfold bind, get, ret;
  split; [|split; [|split]];
  [ unfold is_str; cbv beta iota; rewrite Rm;
    cbn [r_on r_period r_amplitude r_offset r_phase r_function
         with_on with_period with_amplitude with_offset with_phase with_function];
    match goal with G : py_getitem _ _ _ = Ok _ _ |- _ => rewrite G end; reflexivity
  | let c' := fresh "c'" in let v := fresh "v" in let P := fresh "P" in
    let D := fresh "D" in let G := fresh "G" in
    intros c' v P D G; unfold is_str in G |- *; cbv beta iota in G |- *;
    match type of G with
    | match py_getitem ?l (ChInt c') ?w with _ => _ end = _ =>
        let E := fresh "E" in
        destruct (py_getitem l (ChInt c') w) as [?q ?w0| |] eqn:E; try discriminate;
        inversion G; subst;
        rewrite Rm;
        cbn [r_on r_period r_amplitude r_offset r_phase r_function
             with_on with_period with_amplitude with_offset with_phase with_function];
        match goal with G2 : forall _ _ _, _ |- _ => rewrite (G2 c' _ w P D E) end;
        reflexivity
    end
  | rewrite Rm; reflexivity
  | assumption ].

Lemma qle_guard_true (lo hi a : Q) : (lo <= a <= hi)%Q -> Qle_bool lo a && Qle_bool a hi = true.
Proof. intros [A B]. apply andb_true_iff. split; apply Qle_bool_iff; assumption. Qed.

(** A successful [ramp_period(c, time)] on one channel caches [time] (a
    later [ramp_period(c)] returns it), keeps every other non-negative
    channel's cached period and the rest of the cache, and has sent
    exactly ["rc" c] then ["rp" time]. *)
Theorem ramp_period_write_through (fuel : nat) (c t : Z) (w : shield) r w' :
  ramp_period fuel (ChInt c) (Some t) w = Ok r w' ->
  ramp_period fuel (ChInt c) None w' = Ok (PInt t) w'
  /\ (forall c' v, 0 <= c' -> c' <> c ->
        ramp_period fuel (ChInt c') None w = Ok (PInt v) w ->
        ramp_period fuel (ChInt c') None w' = Ok (PInt v) w')
  /\ ramp w' = with_period (r_period (ramp w')) (ramp w)
  /\ dev_sent w' = dev_sent w ++ [ords "rc" ++ encode_num c; ords "rp" ++ encode_num t].
Proof.
  unfold ramp_period, ramp_period_one, is_str. cbv iota.
  destruct (0 <? t); [|discriminate].
  intros H. write_through H.
Qed.

Lemma ramp_period_write_through_witness :
  is_ok (ramp_period 5 (ChInt 2) (Some 250) s_ack) = true
  /\ match ramp_period 5 (ChInt 2) (Some 250) s_ack with
     | Ok r w' =>
         ramp_period 5 (ChInt 2) None w' = Ok (PInt 250) w'
         /\ (forall c' v, 0 <= c' -> c' <> 2 ->
               ramp_period 5 (ChInt c') None s_ack = Ok (PInt v) s_ack ->
               ramp_period 5 (ChInt c') None w' = Ok (PInt v) w')
         /\ ramp w' = with_period (r_period (ramp w')) (ramp s_ack)
         /\ dev_sent w' = dev_sent s_ack ++ [ords "rc" ++ encode_num 2; ords "rp" ++ encode_num 250]
     | _ => True
     end.
Proof.
  split; [vm_compute; reflexivity|].
  destruct (ramp_period 5 (ChInt 2) (Some 250) s_ack) as [r w'| |] eqn:E; try exact I.
  exact (ramp_period_write_through 5 2 250 s_ack r w' E).
Defined.

(** For an offset in [[-5, 5]], a successful [ramp_offset(c, offset)] on
    one channel caches [offset] (a later [ramp_offset(c)] returns it),
    keeps every other non-negative channel's cached offset and the rest of
    the cache, and has sent exactly ["rc" c] then
    ["ro" volts_to_bits(offset)]. *)
Theorem ramp_offset_write_through (fuel : nat) (c : Z) (o : Q) (w : shield) r w' :
  (-5 <= o <= 5)%Q ->
  ramp_offset fuel (ChInt c) (Some o) w = Ok r w' ->
  ramp_offset fuel (ChInt c) None w' = Ok (PNum o) w'
  /\ (forall c' v, 0 <= c' -> c' <> c ->
        ramp_offset fuel (ChInt c') None w = Ok (PNum v) w ->
        ramp_offset fuel (ChInt c') None w' = Ok (PNum v) w')
  /\ ramp w' = with_offset (r_offset (ramp w')) (ramp w)
  /\ dev_sent w' = dev_sent w ++ [ords "rc" ++ encode_num c; ords "ro" ++ encode_num (volts_to_bits o)].
Proof.
  intros B. unfold ramp_offset, ramp_offset_one, is_str. cbv iota.
  rewrite (qle_guard_true _ _ _ B).
  intros H. write_through H.
Qed.

Lemma ramp_offset_write_through_witness :
  (-5 <= -1 <= 5)%Q
  /\ is_ok (ramp_offset 5 (ChInt 0) (Some (-1)%Q) s_ack) = true
  /\ match ramp_offset 5 (ChInt 0) (Some (-1)%Q) s_ack with
     | Ok r w' =>
         ramp_offset 5 (ChInt 0) None w' = Ok (PNum (-1)) w'
         /\ (forall c' v, 0 <= c' -> c' <> 0 ->
               ramp_offset 5 (ChInt c') None s_ack = Ok (PNum v) s_ack ->
               ramp_offset 5 (ChInt c') None w' = Ok (PNum v) w')
         /\ ramp w' = with_offset (r_offset (ramp w')) (ramp s_ack)
         /\ dev_sent w' = dev_sent s_ack ++ [ords "rc" ++ encode_num 0;
                                              ords "ro" ++ encode_num (volts_to_bits (-1))]
     | _ => True
     end.
Proof.
  assert (B : (-5 <= -1 <= 5)%Q) by (split; vm_compute; discriminate).
  split; [exact B|]. split; [vm_compute; reflexivity|].
  destruct (ramp_offset 5 (ChInt 0) (Some (-1)%Q) s_ack) as [r w'| |] eqn:E; try exact I.
  exact (ramp_offset_write_through 5 0 (-1) s_ack r w' B E).
Defined.

(** For a phase in [[0, 100]], a successful [ramp_phase(c, phase)] on one
    channel caches [phase] (a later [ramp_phase(c)] returns it), keeps
    every other non-negative channel's cached phase and the rest of the
    cache, and has sent exactly ["rc" c] then ["rs" int(phase*65535/100)]. *)
Theorem ramp_phase_write_through (fuel : nat) (c : Z) (p : Q) (w : shield) r w' :
  (0 <= p <= 100)%Q ->
  ramp_phase fuel (ChInt c) (Some p) w = Ok r w' ->
  ramp_phase fuel (ChInt c) None w' = Ok (PNum p) w'
  /\ (forall c' v, 0 <= c' -> c' <> c ->
        ramp_phase fuel (ChInt c') None w = Ok (PNum v) w ->
        ramp_phase fuel (ChInt c') None w' = Ok (PNum v) w')
  /\ ramp w' = with_phase (r_phase (ramp w')) (ramp w)
  /\ dev_sent w' = dev_sent w ++ [ords "rc" ++ encode_num c;
                                   ords "rs" ++ encode_num (py_int (p * 65535 / 100))].
Proof.
  intros B. unfold ramp_phase, ramp_phase_one, is_str. cbv iota.
  rewrite (qle_guard_true _ _ _ B).
  intros H. write_through H.
Qed.

Lemma ramp_phase_write_through_witness :
  (0 <= 25 <= 100)%Q
  /\ is_ok (ramp_phase 5 (ChInt 3) (Some 25%Q) s_ack) = true
  /\ match ramp_phase 5 (ChInt 3) (Some 25%Q) s_ack with
     | Ok r w' =>
         ramp_phase 5 (ChInt 3) None w' = Ok (PNum 25) w'
         /\ (forall c' v, 0 <= c' -> c' <> 3 ->
               ramp_phase 5 (ChInt c') None s_ack = Ok (PNum v) s_ack ->
               ramp_phase 5 (ChInt c') None w' = Ok (PNum v) w')
         /\ ramp w' = with_phase (r_phase (ramp w')) (ramp s_ack)
         /\ dev_sent w' = dev_sent s_ack ++ [ords "rc" ++ encode_num 3;
                                              ords "rs" ++ encode_num (py_int (25 * 65535 / 100))]
     | _ => True
     end.
Proof.
  assert (B : (0 <= 25 <= 100)%Q) by (split; vm_compute; discriminate).
  split; [exact B|]. split; [vm_compute; reflexivity|].
  destruct (ramp_phase 5 (ChInt 3) (Some 25%Q) s_ack) as [r w'| |] eqn:E; try exact I.
  exact (ramp_phase_write_through 5 3 25 s_ack r w' B E).
Defined.

(** A successful [ramp_function(c, function)] on one channel caches the
    function's name (a later [ramp_function(c)] returns it), keeps every
    other non-negative channel's cached function and the rest of the
    cache, and has sent exactly ["rc" c] then ["rf" n], [n] the
    function's number in [{"triangle":0, "sin":1, "square":2}]. *)
Theorem ramp_function_write_through (fuel : nat) (c : Z) (f : string) (w : shield) r w' :
  ramp_function fuel (ChInt c) (Some f) w = Ok r w' ->
  ramp_function fuel (ChInt c) None w' = Ok (PStr f) w'
  /\ (forall c' v, 0 <= c' -> c' <> c ->
        ramp_function fuel (ChInt c') None w = Ok (PStr v) w ->
        ramp_function fuel (ChInt c') None w' = Ok (PStr v) w')
  /\ ramp w' = with_function (r_function (ramp w')) (ramp w)
  /\ exists n, func_num f = Some n
     /\ dev_sent w' = dev_sent w ++ [ords "rc" ++ encode_num c; ords "rf" ++ encode_num n].
Proof.
  unfold ramp_function, ramp_function_one, is_str. cbv iota.
  destruct (func_num f) as [n|] eqn:F; [|discriminate].
  intros H. apply cache_set_ok in H as [R [k [N [Rm S]]]].
  edestruct (cache_get_after _ c k f w' ltac:(lia) N) as [G1 G2].
  unfold bind, get, ret.
  split; [|split; [|split]].
  - cbv beta iota. rewrite Rm. cbn [r_function with_function]. rewrite G1. reflexivity.
  - intros c' v P D G. cbv beta iota in G |- *.
    destruct (py_getitem (r_function (ramp w)) (ChInt c') w) as [q w0| |] eqn:E;
      try discriminate.
    inversion G; subst. rewrite Rm. cbn [r_function with_function].
    rewrite (G2 c' v w P D E). reflexivity.
  - rewrite Rm. reflexivity.
  - exists n. split; [reflexivity | exact S].
Qed.

Lemma ramp_function_write_through_witness :
  is_ok (ramp_function 5 (ChInt 1) (Some "sin"%string) s_ack) = true
  /\ match ramp_function 5 (ChInt 1) (Some "sin"%string) s_ack with
     | Ok r w' =>
         ramp_function 5 (ChInt 1) None w' = Ok (PStr "sin") w'
         /\ (forall c' v, 0 <= c' -> c' <> 1 ->
               ramp_function 5 (ChInt c') None s_ack = Ok (PStr v) s_ack ->
               ramp_function 5 (ChInt c') None w' = Ok (PStr v) w')
         /\ ramp w' = with_function (r_function (ramp w')) (ramp s_ack)
         /\ exists n, func_num "sin" = Some n
            /\ dev_sent w' = dev_sent s_ack ++ [ords "rc" ++ encode_num 1; ords "rf" ++ encode_num n]
     | _ => True
     end.
Proof.
  split; [vm_compute; reflexivity|].
  destruct (ramp_function 5 (ChInt 1) (Some "sin"%string) s_ack) as [r w'| |] eqn:E; try exact I.
  exact (ramp_function_write_through 5 1 "sin" s_ack r w' E).
Defined.

(** A successful [ramp_on(c)] (or [ramp_off(c)]) on one channel makes
    [ramp_running(c)] report [True] (or [False]), keeps what every other
    non-negative channel reports and the rest of the cache, and has sent
    exactly ["rc" c] then ["r1" 0] (or ["r0" 0]). *)
Theorem ramp_switch_running (fuel : nat) (on : bool) (c : Z) (w : shield) r w' :
  (if on then ramp_on fuel (ChInt c) w else ramp_off fuel (ChInt c) w) = Ok r w' ->
  ramp_running (ChInt c) w' = Ok on w'
  /\ (forall c' b, 0 <= c' -> c' <> c ->
        ramp_running (ChInt c') w = Ok b w -> ramp_running (ChInt c') w' = Ok b w')
  /\ ramp w' = with_on (r_on (ramp w')) (ramp w)
  /\ dev_sent w' = dev_sent w ++ [ords "rc" ++ encode_num c;
                                   ords (if on then "r1" else "r0") ++ encode_num 0].
Proof.
  intros H.
  assert (H' : ramp_switch_one fuel on (ChInt c) w = Ok r w')
    by (destruct on; exact H).
  clear H. unfold ramp_switch_one in H'.
  apply cache_set_ok in H' as [R [k [N [Rm S]]]].
  destruct (cache_get_after _ c k on w' ltac:(lia) N) as [G1 G2].
  unfold ramp_running, bind, get.
  split; [|split; [|split]].
  - rewrite Rm. cbn [r_on with_on]. exact G1.
  - intros c' b P D G. rewrite Rm. cbn [r_on with_on]. exact (G2 c' b w P D G).
  - rewrite Rm. reflexivity.
  - exact S.
Qed.

Lemma ramp_switch_running_witness :
  is_ok (ramp_on 5 (ChInt 2) s_ack) = true
  /\ match ramp_on 5 (ChInt 2) s_ack with
     | Ok r w' =>
         ramp_running (ChInt 2) w' = Ok true w'
         /\ (forall c' b, 0 <= c' -> c' <> 2 ->
               ramp_running (ChInt c') s_ack = Ok b s_ack -> ramp_running (ChInt c') w' = Ok b w')
         /\ ramp w' = with_on (r_on (ramp w')) (ramp s_ack)
         /\ dev_sent w' = dev_sent s_ack ++ [ords "rc" ++ encode_num 2; ords "r1" ++ encode_num 0]
     | _ => True
     end.
Proof.
  split; [vm_compute; reflexivity|].
  destruct (ramp_on 5 (ChInt 2) s_ack) as [r w'| |] eqn:E; try exact I.
  exact (ramp_switch_running 5 true 2 s_ack r w' E).
Defined.

(** ** DAC and ADC methods *)

(** With [correct] set and an integer channel, [analog_write] is the
    uncorrected write of the corrected value: a stored line [p] for the
    channel turns [val] into [p(val)] clamped to [[-5, 5]]; no stored line
    writes [val] itself and records a [DacUncalibrated] warning. *)
Theorem analog_write_correction (fuel : nat) (c : Z) (v : Q) (w : shield) :
  (forall p, py_getitem (deref w (dac_ref w)) (ChInt c) w = Ok (Some p) w ->
     analog_write fuel (ChInt c) v true w
     = analog_write fuel (ChInt c) (py_min 5 (py_max (-5) (poly_eval p v))) false w)
  /\ (py_getitem (deref w (dac_ref w)) (ChInt c) w = Ok None w ->
     analog_write fuel (ChInt c) v true w
     = analog_write fuel (ChInt c) v false (add_warn (DacUncalibrated (ChInt c)) w)).
Proof.
  split.
  - intros p G. unfold analog_write, bind, get, ret, warn, modify.
    cbn [is_str andb negb]. cbv beta iota. rewrite G. reflexivity.
  - intros G. unfold analog_write, bind, get, ret, warn, modify.
    cbn [is_str andb negb]. cbv beta iota. rewrite G. reflexivity.
Qed.

Lemma analog_write_correction_witness :
  py_getitem (deref s_ack (dac_ref s_ack)) (ChInt 1) s_ack = Ok None s_ack
  /\ analog_write 5 (ChInt 1) 1 true s_ack
     = analog_write 5 (ChInt 1) 1 false (add_warn (DacUncalibrated (ChInt 1)) s_ack).
Proof.
  assert (G : py_getitem (deref s_ack (dac_ref s_ack)) (ChInt 1) s_ack = Ok None s_ack)
    by reflexivity.
  split; [exact G | exact (proj2 (analog_write_correction 5 1 1 s_ack) G)].
Defined.

Lemma write_in_range fuel identifier arg w :
  0 <= arg <= 65535 ->
  match write fuel identifier arg w with
  | Ok _ w' => dev_sent w' = dev_sent w ++ [ords identifier ++ encode_num arg]
  | Err _ _ => False
  | Hang => True
  end.
Proof.
  intros R. unfold write. rewrite frame_spec by exact R.
  destruct (read_chunk (dev_in w)). destruct (recv_loop _ _ _) as [[]|]; reflexivity || exact I.
Qed.

Lemma analog_write_plain fuel c v w :
  0 <= c <= 3 -> (-5 <= v <= 5)%Q ->
  match analog_write fuel (ChInt c) v false w with
  | Ok res w' => res <> None
      /\ dev_sent w' = dev_sent w ++ [ords ("v" ++ str_digit c) ++ encode_num (volts_to_bits v)]
  | Err _ _ => False
  | Hang => True
  end.
Proof.
  intros C V. unfold analog_write, bind, ret. cbn [andb].
  replace ((0 <=? c) && (c <=? 3)) with true by (symmetry; apply andb_true_iff; split; apply Z.leb_le; lia).
  pose proof (write_in_range fuel ("v" ++ str_digit c) (volts_to_bits v) w
                (volts_to_bits_bounds v V)) as W.
  destruct (write fuel _ _ w); auto. split; [discriminate | exact W].
Qed.

Lemma clamp_bounds (x : Q) : (-5 <= py_min 5 (py_max (-5) x) <= 5)%Q.
Proof.
  unfold py_min, py_max. destruct (Qle_bool x (-5)) eqn:A; cbv beta iota.
  - replace (Qle_bool 5 (-5)) with false by reflexivity. split; lra.
  - apply not_true_iff_false in A. rewrite Qle_bool_iff in A. apply Qnot_le_lt in A.
    destruct (Qle_bool 5 x) eqn:B; cbv beta iota.
    + split; lra.
    + apply not_true_iff_false in B. rewrite Qle_bool_iff in B.
      apply Qnot_le_lt in B. split; lra.
Qed.

(** An uncorrected [analog_write(c, val, correct=False)] on a channel in
    [[0, 3]] with [val] in [[-5, 5]] never raises: unless the device never
    answers, it returns the response and has sent exactly the frame
    ["v" str(c)] followed by [volts_to_bits(val)]. *)
Theorem analog_write_in_range (fuel : nat) (c : Z) (v : Q) (w : shield) :
  0 <= c <= 3 -> (-5 <= v <= 5)%Q ->
  match analog_write fuel (ChInt c) v false w with
  | Ok res w' => res <> None
      /\ dev_sent w' = dev_sent w ++ [ords ("v" ++ str_digit c) ++ encode_num (volts_to_bits v)]
  | Err _ _ => False
  | Hang => True
  end.
Proof. apply analog_write_plain. Qed.

Lemma analog_write_in_range_witness :
  (0 <= 2 <= 3 /\ (-5 <= 3 # 2 <= 5)%Q)
  /\ match analog_write 5 (ChInt 2) (3 # 2) false s_ack with
     | Ok res w' => res <> None
         /\ dev_sent w' = dev_sent s_ack ++ [ords ("v" ++ str_digit 2) ++ encode_num (volts_to_bits (3 # 2))]
     | Err _ _ => False
     | Hang => True
     end.
Proof.
  assert (C : 0 <= 2 <= 3) by lia.
  assert (V : (-5 <= 3 # 2 <= 5)%Q) by (split; vm_compute; discriminate).
  split; [split; assumption | exact (analog_write_in_range 5 2 (3 # 2) s_ack C V)].
Defined.

(** A corrected [analog_write(c, val)] on a channel in [[0, 3]] that has a
    stored DAC line [p] never raises, whatever [val]: the corrected value
    is clamped to [[-5, 5]], so unless the device never answers the write
    returns the response, having sent exactly ["v" str(c)] followed by
    [volts_to_bits] of the clamped [p(val)]. *)
Theorem analog_write_corrected_never_raises (fuel : nat) (c : Z) (v : Q) (w : shield) p :
  0 <= c <= 3 ->
  py_getitem (deref w (dac_ref w)) (ChInt c) w = Ok (Some p) w ->
  match analog_write fuel (ChInt c) v true w with
  | Ok res w' => res <> None
      /\ dev_sent w' = dev_sent w ++ [ords ("v" ++ str_digit c)
                                      ++ encode_num (volts_to_bits (py_min 5 (py_max (-5) (poly_eval p v))))]
  | Err _ _ => False
  | Hang => True
  end.
Proof.
  intros C G.
  replace (analog_write fuel (ChInt c) v true w)
    with (analog_write fuel (ChInt c) (py_min 5 (py_max (-5) (poly_eval p v))) false w).
  - apply analog_write_plain; [exact C | apply clamp_bounds].
  - unfold analog_write, bind, get, ret, warn, modify.
    cbn [is_str andb negb]. cbv beta iota. rewrite G. reflexivity.
Qed.

Lemma analog_write_corrected_never_raises_witness :
  (0 <= 0 <= 3
   /\ py_getitem (deref s_dac_cal (dac_ref s_dac_cal)) (ChInt 0) s_dac_cal
      = Ok (Some {| p_slope := 2; p_icept := 1 |}) s_dac_cal)
  /\ match analog_write 5 (ChInt 0) 4 true s_dac_cal with
     | Ok res w' => res <> None
         /\ dev_sent w' = dev_sent s_dac_cal
              ++ [ords ("v" ++ str_digit 0)
                  ++ encode_num (volts_to_bits (py_min 5 (py_max (-5)
                                  (poly_eval {| p_slope := 2; p_icept := 1 |} 4))))]
     | Err _ _ => False
     | Hang => True
     end.
Proof.
  assert (C : 0 <= 0 <= 3) by lia.
  assert (G : py_getitem (deref s_dac_cal (dac_ref s_dac_cal)) (ChInt 0) s_dac_cal
              = Ok (Some {| p_slope := 2; p_icept := 1 |}) s_dac_cal) by reflexivity.
  split; [split; assumption | exact (analog_write_corrected_never_raises 5 0 4 s_dac_cal _ C G)].
Defined.

(** An integer channel outside [[0, 3]] makes [analog_write] fall off the
    end of its branches: uncorrected, it returns [None] without sending
    anything; corrected, a channel past the end of [self.dac_correct]
    raises [IndexError] first, again without sending anything. *)
Theorem analog_write_other_channel (fuel : nat) (c : Z) (v : Q) (w : shield) :
  ~ (0 <= c <= 3) ->
  analog_write fuel (ChInt c) v false w = Ok None w
  /\ (Z.of_nat (List.length (deref w (dac_ref w))) <= c ->
      analog_write fuel (ChInt c) v true w = Err IndexError w).
Proof.
  intros C.
  assert (Gd : (0 <=? c) && (c <=? 3) = false).
  { destruct (0 <=? c) eqn:A, (c <=? 3) eqn:B; try reflexivity.
    apply Z.leb_le in A, B. lia. }
  split.
  - unfold analog_write, bind, ret. cbn [andb]. rewrite Gd. reflexivity.
  - intros L. unfold analog_write, bind, get, ret, raise.
    cbn [is_str andb negb]. cbv beta iota. unfold py_getitem, py_norm, raise.
    replace ((0 <=? c) && (c <? Z.of_nat (List.length (deref w (dac_ref w))))) with false
      by (symmetry; apply andb_false_iff; right; apply Z.ltb_ge; exact L).
    replace ((- Z.of_nat (List.length (deref w (dac_ref w))) <=? c) && (c <? 0)) with false
      by (symmetry; apply andb_false_iff; right; apply Z.ltb_ge; lia).
    reflexivity.
Qed.

Lemma analog_write_other_channel_witness :
  ~ (0 <= 4 <= 3)
  /\ analog_write 5 (ChInt 4) 1 false s_ack = Ok None s_ack
  /\ (Z.of_nat (List.length (deref s_ack (dac_ref s_ack))) <= 4
      /\ analog_write 5 (ChInt 4) 1 true s_ack = Err IndexError s_ack).
Proof.
  assert (C : ~ (0 <= 4 <= 3)) by lia.
  destruct (analog_write_other_channel 5 4 1 s_ack C) as [A B].
  assert (L : Z.of_nat (List.length (deref s_ack (dac_ref s_ack))) <= 4) by (vm_compute; discriminate).
  split; [exact C|]. split; [exact A|]. split; [exact L | exact (B L)].
Defined.

(** A string channel other than exactly ["all"] cannot be corrected: with
    [correct] set, [analog_write] raises [TypeError] on
    [self.dac_correct[channel]] before sending anything; ["all"] itself
    skips the correction, so the corrected and uncorrected calls are the
    same. *)
Theorem analog_write_str_channel (fuel : nat) (s : string) (v : Q) (w : shield) :
  analog_write fuel (ChStr "all") v true w = analog_write fuel (ChStr "all") v false w
  /\ (s <> "all"%string -> analog_write fuel (ChStr s) v true w = Err TypeError w).
Proof.
  split.
  - reflexivity.
  - intros D. unfold analog_write, bind, get, raise. unfold is_str.
    replace (String.eqb s "all") with false by (symmetry; apply String.eqb_neq; exact D).
    reflexivity.
Qed.

Lemma analog_write_str_channel_witness :
  "ALL"%string <> "all"%string
  /\ analog_write 5 (ChStr "ALL") 1 true s_ack = Err TypeError s_ack.
Proof.
  assert (D : "ALL"%string <> "all"%string) by discriminate.
  split; [exact D | exact (proj2 (analog_write_str_channel 5 "ALL" 1 s_ack) D)].
Defined.

(** With [correct] set, [analog_read] on a channel in [[0, 3]] is the
    uncorrected read followed by the correction: a stored ADC line [p]
    maps every returned voltage through [p]; no stored line returns the
    raw voltages and records an [AdcUncalibrated] warning. Errors and a
    silent device are the same either way. *)
Theorem analog_read_correction (fuel : nat) (c samples : Z) (w : shield) :
  0 <= c <= 3 ->
  (forall p, py_getitem (deref w (adc_ref w)) (ChInt c) w = Ok (Some p) w ->
     analog_read fuel (ChInt c) samples true w
     = map_ok (map (poly_eval p)) (fun w' => w') (analog_read fuel (ChInt c) samples false w))
  /\ (py_getitem (deref w (adc_ref w)) (ChInt c) w = Ok None w ->
     analog_read fuel (ChInt c) samples true w
     = map_ok (fun vs => vs) (add_warn (AdcUncalibrated (ChInt c)))
              (analog_read fuel (ChInt c) samples false w)).
Proof.
  intros C.
  assert (Gd : (0 <=? c) && (c <=? 3) = true)
    by (apply andb_true_iff; split; apply Z.leb_le; lia).
  assert (step : forall o,
    py_getitem (deref w (adc_ref w)) (ChInt c) w = Ok o w ->
    analog_read fuel (ChInt c) samples true w
    = match analog_read fuel (ChInt c) samples false w with
      | Ok vs w2 =>
          match o with
          | Some p => ret (map (poly_eval p) vs) w2
          | None => (warn (AdcUncalibrated (ChInt c)) ;;; ret vs) w2
          end
      | Err e w2 => Err e w2
      | Hang => Hang
      end).
  { intros o G. unfold analog_read. rewrite Gd. unfold bind, get, ret, warn, modify.
    destruct (write fuel ("A" ++ str_digit c) samples w) as [resp w1|e w1|] eqn:W;
      try reflexivity.
    destruct (map_m py_int16 (split_comma resp) w1) as [bits w2|e w2|] eqn:Mm;
      try reflexivity.
    pose proof (keeps_write _ _ _ _ _ _ W) as F1.
    pose proof (keeps_map_m _ _ keeps_py_int16 _ _ _ Mm) as F2.
    destruct F1 as [H1 [A1 _]]. destruct F2 as [H2 [A2 _]].
    apply getitem_inv in G as [_ [k [N E]]].
    assert (D : deref w2 (adc_ref w2) = deref w (adc_ref w))
      by (unfold deref; congruence).
    rewrite D. rewrite (getitem_at _ _ _ _ w2 N E). destruct o; reflexivity. }
  split.
  - intros p G. rewrite (step _ G).
    destruct (analog_read fuel (ChInt c) samples false w); reflexivity.
  - intros G. rewrite (step _ G).
    destruct (analog_read fuel (ChInt c) samples false w); reflexivity.
Qed.

Lemma analog_read_correction_witness :
  (0 <= 0 <= 3 /\ py_getitem (deref s_echo (adc_ref s_echo)) (ChInt 0) s_echo = Ok None s_echo)
  /\ analog_read 5 (ChInt 0) 1 true s_echo
     = map_ok (fun vs => vs) (add_warn (AdcUncalibrated (ChInt 0)))
              (analog_read 5 (ChInt 0) 1 false s_echo).
Proof.
  assert (C : 0 <= 0 <= 3) by lia.
  assert (G : py_getitem (deref s_echo (adc_ref s_echo)) (ChInt 0) s_echo = Ok None s_echo)
    by reflexivity.
  split; [split; assumption | exact (proj2 (analog_read_correction 5 0 1 s_echo C) G)].
Defined.

Lemma py_norm_four_neg (c : Z) : -4 <= c < 0 -> py_norm 4 c = Some (Z.to_nat (4 + c)).
Proof.
  intros C. unfold py_norm.
  replace (0 <=? c) with false by (symmetry; apply Z.leb_gt; lia).
  replace ((- Z.of_nat 4 <=? c) && (c <? 0)) with true
    by (symmetry; apply andb_true_iff; split; [apply Z.leb_le | apply Z.ltb_lt]; lia).
  reflexivity.
Qed.

Lemma py_norm_four_pos (c : Z) : 0 <= c < 4 -> py_norm 4 c = Some (Z.to_nat c).
Proof.
  intros C. unfold py_norm.
  replace ((0 <=? c) && (c <? Z.of_nat 4)) with true
    by (symmetry; apply andb_true_iff; split; [apply Z.leb_le | apply Z.ltb_lt]; lia).
  reflexivity.
Qed.

(** [self.ramp_amplitude] is updated before any command is sent: on a
    cache of four channels, [ramp_amplitude(c, amp)] with a negative
    channel [-4 <= c < 0] and [amp] in [[0, 5]] stores [amp] for channel
    [4 + c] (Python's negative indexing) and then raises the [ValueError]
    of [write("rc", c)], having sent nothing. *)
Theorem ramp_amplitude_negative_channel (fuel : nat) (c : Z) (a : Q) (w : shield) :
  List.length (r_amplitude (ramp w)) = 4%nat -> -4 <= c < 0 -> (0 <= a <= 5)%Q ->
  exists w', ramp_amplitude fuel (ChInt c) (Some a) w = Err (ValueError ByteRange) w'
    /\ dev_sent w' = dev_sent w
    /\ ramp_amplitude fuel (ChInt (4 + c)) None w' = Ok (PNum a) w'.
Proof.
  intros L C A.
  unfold ramp_amplitude, ramp_amplitude_one, is_str. cbv iota.
  rewrite (qle_guard_true _ _ _ A).
  unfold bind at 1, get. cbv beta.
  unfold py_setitem. rewrite L, (py_norm_four_neg c C).
  unfold bind at 1, ret. cbv beta. unfold bind at 1, modify. cbv beta. cbv zeta.
  unfold bind at 1, select_channel. rewrite write_reject by lia.
  eexists. split; [reflexivity|]. split; [reflexivity|].
  unfold bind, get, ret. cbn [is_str ramp set_ramp r_amplitude with_amplitude].
  rewrite (getitem_at _ _ (Z.to_nat (4 + c)) a).
  - reflexivity.
  - rewrite length_upd, L. apply py_norm_four_pos. lia.
  - apply nth_error_upd_same. lia.
Qed.

Lemma ramp_amplitude_negative_channel_witness :
  (List.length (r_amplitude (ramp s_ack)) = 4%nat /\ -4 <= -1 < 0 /\ (0 <= 2 <= 5)%Q)
  /\ exists w', ramp_amplitude 5 (ChInt (-1)) (Some 2%Q) s_ack = Err (ValueError ByteRange) w'
    /\ dev_sent w' = dev_sent s_ack
    /\ ramp_amplitude 5 (ChInt (4 + -1)) None w' = Ok (PNum 2) w'.
Proof.
  assert (L : List.length (r_amplitude (ramp s_ack)) = 4%nat) by reflexivity.
  assert (C : -4 <= -1 < 0) by lia.
  assert (A : (0 <= 2 <= 5)%Q) by (split; vm_compute; discriminate).
  split; [exact (conj L (conj C A)) | exact (ramp_amplitude_negative_channel 5 (-1) 2 s_ack L C A)].
Defined.

(** On a cache of four channels, [ramp_period(c, time)] with [c] in
    [[0, 3]] and [time] above 65535 stores [time], sends ["rc" c], and
    then raises the [ValueError] of [write("rp", time)] without sending
    the period: the cache then holds a period the device never received. *)
Theorem ramp_period_too_long (fuel : nat) (c t : Z) (w : shield) :
  List.length (r_period (ramp w)) = 4%nat -> 0 <= c <= 3 -> 65535 < t ->
  match ramp_period fuel (ChInt c) (Some t) w with
  | Err e w' => e = ValueError ByteRange
      /\ dev_sent w' = dev_sent w ++ [ords "rc" ++ encode_num c]
      /\ ramp_period fuel (ChInt c) None w' = Ok (PInt t) w'
  | Ok _ _ => False
  | Hang => True
  end.
Proof.
  intros L C T.
  unfold ramp_period, ramp_period_one, is_str. cbv iota.
  replace (0 <? t) with true by (symmetry; apply Z.ltb_lt; lia).
  unfold bind at 1, get. cbv beta.
  unfold py_setitem. rewrite L, (py_norm_four_pos c ltac:(lia)).
  unfold bind at 1, ret. cbv beta. unfold bind at 1, modify. cbv beta.
  unfold bind at 1, select_channel.
  set (w1 := set_ramp _ w).
  pose proof (write_in_range fuel "rc" c w1 ltac:(lia)) as W.
  destruct (write fuel "rc" c w1) as [r1 w2| |] eqn:E; try contradiction; [|exact I].
  apply write_ok_frame in E as [_ [S1 E1]].
  unfold bind at 1. rewrite write_reject by lia.
  split; [reflexivity|]. split; [exact S1|].
  unfold bind, get, ret. cbn [is_str]. cbv beta iota.
  rewrite E1. cbn [ramp set_io w1 set_ramp r_period with_period].
  rewrite (getitem_at _ _ (Z.to_nat c) t).
  - reflexivity.
  - rewrite length_upd, L. apply py_norm_four_pos. lia.
  - apply nth_error_upd_same. lia.
Qed.

Lemma ramp_period_too_long_witness :
  (List.length (r_period (ramp s_ack)) = 4%nat /\ 0 <= 1 <= 3 /\ 65535 < 70000)
  /\ match ramp_period 5 (ChInt 1) (Some 70000) s_ack with
     | Err e w' => e = ValueError ByteRange
         /\ dev_sent w' = dev_sent s_ack ++ [ords "rc" ++ encode_num 1]
         /\ ramp_period 5 (ChInt 1) None w' = Ok (PInt 70000) w'
     | Ok _ _ => False
     | Hang => True
     end.
Proof.
  assert (L : List.length (r_period (ramp s_ack)) = 4%nat) by reflexivity.
  assert (C : 0 <= 1 <= 3) by lia.
  assert (T : 65535 < 70000) by lia.
  split; [exact (conj L (conj C T)) | exact (ramp_period_too_long 5 1 70000 s_ack L C T)].
Defined.

(** ** Calibration *)








(** ** The ["all"] fan-out *)

Lemma fanout_ok {T} fuel (getf : ramp_cache -> list T)
    (setf : list T -> ramp_cache -> ramp_cache) (x : T) (identifier : string) (bits : Z) w r w' :
  (forall l rc, getf (setf l rc) = l) ->
  (forall l1 l2 rc, setf l2 (setf l1 rc) = setf l2 rc) ->
  List.length (getf (ramp w)) = 4%nat ->
  for_channels (fun c =>
    w0 <- get ;;
    l <- py_setitem (getf (ramp w0)) (ChInt c) x ;;
    modify (set_ramp (setf l (ramp w0))) ;;;
    select_channel fuel (ChInt c) ;;;
    r <- write fuel identifier bits ;;
    ret (PStr r)) w = Ok r w' ->
  ramp w' = setf (four x) (ramp w)
  /\ dev_sent w' = dev_sent w ++ List.concat
       (map (fun c => [ords "rc" ++ encode_num c; ords identifier ++ encode_num bits]) [0; 1; 2; 3]).
Proof.
  intros GS SS L H. unfold for_channels in H.
  bind_step H. apply cache_set_ok in Hs as [_ [k0 [N0 [R0 S0]]]].
  bind_step H. apply cache_set_ok in Hs as [_ [k1 [N1 [R1 S1]]]].
  bind_step H. apply cache_set_ok in Hs as [_ [k2 [N2 [R2 S2]]]].
  bind_step H. apply cache_set_ok in Hs as [_ [k3 [N3 [R3 S3]]]].
  unfold ret in H. inversion H; subst; clear H.
  rewrite R2, R1, R0, !GS, !length_upd in *.
  apply py_norm_nonneg in N0, N1, N2, N3; try lia. simpl in N0, N1, N2, N3. subst.
  split.
  - rewrite R3, !SS. f_equal.
    destruct (getf (ramp w)) as [|e0 [|e1 [|e2 [|e3 [|? ?]]]]]; simpl in L; try discriminate.
    reflexivity.
  - rewrite S3, S2, S1, S0. simpl. rewrite <- !app_assoc. reflexivity.
Qed.

(** On a cache of four channels, a successful [ramp_period("all", time)]
    caches [time] for every channel, keeps the rest of the cache, and has
    sent ["rc" c] then ["rp" time] for [c = 0, 1, 2, 3] in that order. *)
Theorem ramp_period_all (fuel : nat) (t : Z) (w : shield) r w' :
  List.length (r_period (ramp w)) = 4%nat ->
  ramp_period fuel (ChStr "all") (Some t) w = Ok r w' ->
  (forall c, 0 <= c <= 3 -> ramp_period fuel (ChInt c) None w' = Ok (PInt t) w')
  /\ ramp w' = with_period (four t) (ramp w)
  /\ dev_sent w' = dev_sent w ++ List.concat
       (map (fun c => [ords "rc" ++ encode_num c; ords "rp" ++ encode_num t]) [0; 1; 2; 3]).
Proof.
  intros L H. unfold ramp_period, ramp_period_one, is_str in H. cbn [String.eqb] in H.
  destruct (0 <? t); [|unfold for_channels, bind, raise in H; discriminate].
  apply (fanout_ok fuel r_period with_period) in H as [R S];
    [|reflexivity|reflexivity|exact L].
  split; [|split; [exact R | exact S]].
  intros c C. unfold ramp_period, ramp_period_one, is_str, bind, get, ret. cbv beta iota.
  rewrite R. cbn [r_period with_period].
  rewrite (getitem_at _ _ (Z.to_nat c) t); [reflexivity| apply py_norm_four_pos; lia |].
  unfold four. destruct (Z.to_nat c) as [|[|[|[|?]]]] eqn:E; try reflexivity. lia.
Qed.

Lemma ramp_period_all_witness :
  (List.length (r_period (ramp s_ack8)) = 4%nat
   /\ is_ok (ramp_period 5 (ChStr "all") (Some 300) s_ack8) = true)
  /\ match ramp_period 5 (ChStr "all") (Some 300) s_ack8 with
     | Ok r w' =>
         (forall c, 0 <= c <= 3 -> ramp_period 5 (ChInt c) None w' = Ok (PInt 300) w')
         /\ ramp w' = with_period (four 300) (ramp s_ack8)
         /\ dev_sent w' = dev_sent s_ack8 ++ List.concat
              (map (fun c => [ords "rc" ++ encode_num c; ords "rp" ++ encode_num 300]) [0; 1; 2; 3])
     | _ => True
     end.
Proof.
  assert (L : List.length (r_period (ramp s_ack8)) = 4%nat) by reflexivity.
  split; [split; [exact L | vm_compute; reflexivity]|].
  destruct (ramp_period 5 (ChStr "all") (Some 300) s_ack8) as [r w'| |] eqn:E; try exact I.
  exact (ramp_period_all 5 300 s_ack8 r w' L E).
Defined.

(** On a cache of four channels, a successful [ramp_on("all")] (or
    [ramp_off("all")]) makes [ramp_running(c)] report [True] (or [False])
    for every channel [c] in [[0, 3]], keeps the rest of the cache, and has
    sent ["rc" c] then ["r1" 0] (or ["r0" 0]) for [c = 0, 1, 2, 3] in that
    order. *)
Theorem ramp_switch_all (fuel : nat) (on : bool) (w : shield) r w' :
  List.length (r_on (ramp w)) = 4%nat ->
  (if on then ramp_on fuel (ChStr "all") w else ramp_off fuel (ChStr "all") w) = Ok r w' ->
  (forall c, 0 <= c <= 3 -> ramp_running (ChInt c) w' = Ok on w')
  /\ ramp w' = with_on (four on) (ramp w)
  /\ dev_sent w' = dev_sent w ++ List.concat
       (map (fun c => [ords "rc" ++ encode_num c; ords (if on then "r1" else "r0") ++ encode_num 0])
            [0; 1; 2; 3]).
Proof.
  intros L H.
  assert (H' : for_channels (fun c => ramp_switch_one fuel on (ChInt c)) w = Ok r w')
    by (destruct on; exact H).
  clear H. unfold ramp_switch_one in H'.
  apply (fanout_ok fuel r_on with_on) in H' as [R S]; [|reflexivity|reflexivity|exact L].
  split; [|split; [exact R | exact S]].
  intros c C. unfold ramp_running, bind, get.
  rewrite R. cbn [r_on with_on].
  rewrite (getitem_at _ _ (Z.to_nat c) on); [reflexivity| apply py_norm_four_pos; lia |].
  unfold four. destruct (Z.to_nat c) as [|[|[|[|?]]]] eqn:E; try reflexivity. lia.
Qed.

Lemma ramp_switch_all_witness :
  (List.length (r_on (ramp s_ack8)) = 4%nat /\ is_ok (ramp_on 5 (ChStr "all") s_ack8) = true)
  /\ match ramp_on 5 (ChStr "all") s_ack8 with
     | Ok r w' =>
         (forall c, 0 <= c <= 3 -> ramp_running (ChInt c) w' = Ok true w')
         /\ ramp w' = with_on (four true) (ramp s_ack8)
         /\ dev_sent w' = dev_sent s_ack8 ++ List.concat
              (map (fun c => [ords "rc" ++ encode_num c; ords "r1" ++ encode_num 0]) [0; 1; 2; 3])
     | _ => True
     end.
Proof.
  assert (L : List.length (r_on (ramp s_ack8)) = 4%nat) by reflexivity.
  split; [split; [exact L | vm_compute; reflexivity]|].
  destruct (ramp_on 5 (ChStr "all") s_ack8) as [r w'| |] eqn:E; try exact I.
  exact (ramp_switch_all 5 true s_ack8 r w' L E).
Defined.

Lemma bits_to_volts_range_witness :
  0 <= 65535 <= 65535 /\ (-5 <= bits_to_volts 65535 <= 5)%Q.
Proof.
  assert (B : 0 <= 65535 <= 65535) by lia.
  exact (conj B (bits_to_volts_range 65535 B)).
Defined.

(** When the device answers an ADC request with an empty payload (just the
    terminator), [analog_read] on a channel in [[0, 3]] raises the
    [ValueError] of [int("", 16)]: [split(",")] of the empty response is
    one empty field. *)
Theorem analog_read_empty_response (fuel : nat) (c samples : Z) (correct : bool) (w w1 : shield) :
  0 <= c <= 3 ->
  write fuel ("A" ++ str_digit c) samples w = Ok ""%string w1 ->
  analog_read fuel (ChInt c) samples correct w = Err (ValueError (BadHex "")) w1.
Proof.
  intros C W. unfold analog_read.
  replace ((0 <=? c) && (c <=? 3)) with true
    by (symmetry; apply andb_true_iff; split; apply Z.leb_le; lia).
  unfold bind at 1. rewrite W. reflexivity.
Qed.

Lemma analog_read_empty_response_witness :
  (0 <= 0 <= 3
   /\ write 5 ("A" ++ str_digit 0) 5 s_ack
      = Ok ""%string (set_io [ords "A0" ++ encode_num 5] [[59]; []] s_ack))
  /\ analog_read 5 (ChInt 0) 5 true s_ack
     = Err (ValueError (BadHex "")) (set_io [ords "A0" ++ encode_num 5] [[59]; []] s_ack).
Proof.
  assert (C : 0 <= 0 <= 3) by lia.
  assert (W : write 5 ("A" ++ str_digit 0) 5 s_ack
              = Ok ""%string (set_io [ords "A0" ++ encode_num 5] [[59]; []] s_ack))
    by (vm_compute; reflexivity).
  split; [exact (conj C W) | exact (analog_read_empty_response 5 0 5 true s_ack _ C W)].
Defined.

Lemma cache_set_no_err {T} fuel (getf : ramp_cache -> list T)
    (setf : list T -> ramp_cache -> ramp_cache) (c : Z) (x : T)
    (identifier : string) (bits : Z) w :
  List.length (getf (ramp w)) = 4%nat -> 0 <= c <= 3 -> 0 <= bits <= 65535 ->
  match (w0 <- get ;;
         l <- py_setitem (getf (ramp w0)) (ChInt c) x ;;
         modify (set_ramp (setf l (ramp w0))) ;;;
         select_channel fuel (ChInt c) ;;;
         r <- write fuel identifier bits ;;
         ret (PStr r)) w with
  | Err _ _ => False
  | _ => True
  end.
Proof.
  intros L C B.
  unfold bind at 1, get. cbv beta.
  unfold py_setitem. rewrite L, (py_norm_four_pos c ltac:(lia)).
  unfold bind at 1, ret at 1. cbv beta. unfold bind at 1, modify. cbv beta.
  unfold bind at 1, select_channel.
  set (w1 := set_ramp _ w).
  pose proof (write_in_range fuel "rc" c w1 ltac:(lia)) as W1.
  destruct (write fuel "rc" c w1) as [r1 w2| |]; try contradiction; [|exact I].
  unfold bind. pose proof (write_in_range fuel identifier bits w2 B) as W2.
  destruct (write fuel identifier bits w2); try contradiction; exact I.
Qed.

(** On a cache of four channels and a channel in [[0, 3]], the ramp
    setters never raise for values they accept: an amplitude in [[0, 5]],
    an offset in [[-5, 5]], a phase in [[0, 100]], a period in
    [[1, 65535]] and a known function name all encode into 16 bits, so the
    call returns unless the device never answers. *)
Theorem ramp_setters_never_raise (fuel : nat) (c : Z) (w : shield) :
  0 <= c <= 3 ->
  List.length (r_period (ramp w)) = 4%nat -> List.length (r_amplitude (ramp w)) = 4%nat ->
  List.length (r_offset (ramp w)) = 4%nat -> List.length (r_phase (ramp w)) = 4%nat ->
  List.length (r_function (ramp w)) = 4%nat ->
  (forall t, 0 < t <= 65535 ->
     match ramp_period fuel (ChInt c) (Some t) w with Err _ _ => False | _ => True end)
  /\ (forall a, (0 <= a <= 5)%Q ->
     match ramp_amplitude fuel (ChInt c) (Some a) w with Err _ _ => False | _ => True end)
  /\ (forall o, (-5 <= o <= 5)%Q ->
     match ramp_offset fuel (ChInt c) (Some o) w with Err _ _ => False | _ => True end)
  /\ (forall p, (0 <= p <= 100)%Q ->
     match ramp_phase fuel (ChInt c) (Some p) w with Err _ _ => False | _ => True end)
  /\ (forall f n, func_num f = Some n ->
     match ramp_function fuel (ChInt c) (Some f) w with Err _ _ => False | _ => True end).
Proof.
  intros C Lp La Lo Lph Lf.
  split; [|split; [|split; [|split]]].
  - intros t T. unfold ramp_period, ramp_period_one, is_str. cbv iota.
    replace (0 <? t) with true by (symmetry; apply Z.ltb_lt; lia).
    apply cache_set_no_err; [exact Lp | exact C | lia].
  - intros a A. unfold ramp_amplitude, ramp_amplitude_one, is_str. cbv iota.
    rewrite (qle_guard_true _ _ _ A). cbv zeta.
    apply cache_set_no_err; [exact La | exact C |].
    apply volts_to_bits_bounds. destruct A. split; lra.
  - intros o O. unfold ramp_offset, ramp_offset_one, is_str. cbv iota.
    rewrite (qle_guard_true _ _ _ O). cbv zeta.
    apply cache_set_no_err; [exact Lo | exact C |].
    apply volts_to_bits_bounds. exact O.
  - intros p [P0 P1]. unfold ramp_phase, ramp_phase_one, is_str. cbv iota.
    rewrite (qle_guard_true _ _ _ (conj P0 P1)). cbv zeta.
    apply cache_set_no_err; [exact Lph | exact C |].
    assert (X0 : (0 <= p * 65535 / 100)%Q)
      by (unfold Qdiv; change (/ 100)%Q with (1 # 100)%Q; lra).
    assert (X1 : (p * 65535 / 100 <= 65535)%Q)
      by (unfold Qdiv; change (/ 100)%Q with (1 # 100)%Q; lra).
    rewrite py_int_floor by exact X0. split.
    + change 0 with (Qfloor 0). apply Qfloor_resp_le. exact X0.
    + change 65535 with (Qfloor 65535). apply Qfloor_resp_le. exact X1.
  - intros f n F. unfold ramp_function, ramp_function_one, is_str. cbv iota.
    rewrite F.
    apply cache_set_no_err; [exact Lf | exact C |].
    unfold func_num in F.
    destruct (String.eqb f "triangle"); [inversion F; lia|].
    destruct (String.eqb f "sin"); [inversion F; lia|].
    destruct (String.eqb f "square"); [inversion F; lia | discriminate].
Qed.

Lemma ramp_setters_never_raise_witness :
  (0 <= 2 <= 3 /\ List.length (r_period (ramp s_ack)) = 4%nat
   /\ List.length (r_amplitude (ramp s_ack)) = 4%nat
   /\ List.length (r_offset (ramp s_ack)) = 4%nat /\ List.length (r_phase (ramp s_ack)) = 4%nat
   /\ List.length (r_function (ramp s_ack)) = 4%nat)
  /\ match ramp_phase 5 (ChInt 2) (Some 100%Q) s_ack with Err _ _ => False | _ => True end.
Proof.
  assert (C : 0 <= 2 <= 3) by lia.
  assert (L1 : List.length (r_period (ramp s_ack)) = 4%nat) by reflexivity.
  assert (L2 : List.length (r_amplitude (ramp s_ack)) = 4%nat) by reflexivity.
  assert (L3 : List.length (r_offset (ramp s_ack)) = 4%nat) by reflexivity.
  assert (L4 : List.length (r_phase (ramp s_ack)) = 4%nat) by reflexivity.
  assert (L5 : List.length (r_function (ramp s_ack)) = 4%nat) by reflexivity.
  assert (P : (0 <= 100 <= 100)%Q) by (split; vm_compute; discriminate).
  split; [exact (conj C (conj L1 (conj L2 (conj L3 (conj L4 L5)))))|].
  destruct (ramp_setters_never_raise 5 2 s_ack C L1 L2 L3 L4 L5) as [_ [_ [_ [Ph _]]]].
  exact (Ph 100%Q P).
Defined.















